(** * CurveFS client: the rename coordinator and the in-memory inode storage

    A shallow embedding of
    - [RenameOperator] (curvefs/src/client/client_operator.cpp): the
      client-side coordinator of the rename transaction, and
    - [MemoryInodeStorage] (curvefs/src/metaserver/inode_storage.cpp).

    The coordinator talks to four collaborators through virtual
    interfaces ([MetaServerClient], [MdsClient], [DentryCacheManager],
    [InodeCacheManager]).  Its methods are embedded as finite trees of
    collaborator calls; running a tree against an arbitrary handler
    yields the returned value, the final collaborator state and the
    ordered trace of calls that were issued.  Every statement below is
    quantified over the handler, that is over every behaviour of the
    collaborators. *)

From Stdlib Require Import ZArith List Lia.
From stdpp Require Import base gmap strings.

Open Scope Z_scope.

(** ** Machine integers

    [uint64_t] values are integers in [0, 2^64); the only arithmetic the
    coordinator performs on them is [x + 1], which wraps around. *)

Definition UINT64_MODULUS : Z := 2 ^ 64.

Definition u64_add (a b : Z) : Z := (a + b) mod UINT64_MODULUS.

Definition is_u64 (a : Z) : Prop := 0 <= a < UINT64_MODULUS.

(** [int] values are the integers in [-2^31, 2^31); converting a wider
    unsigned value to [int] keeps its low 32 bits. *)
Definition is_int (a : Z) : Prop := - 2 ^ 31 <= a < 2 ^ 31.

Definition to_int (a : Z) : Z := (a + 2 ^ 31) mod 2 ^ 32 - 2 ^ 31.

(** ** Status codes *)

(** [MetaStatusCode] (metaserver.proto).  The sources name [OK],
    [INODE_EXIST] and [NOT_FOUND]; [OTHER] stands for the enumerators
    they do not name. *)
Module MetaStatusCode.
Inductive t : Set := OK | INODE_EXIST | NOT_FOUND | OTHER (code : Z).
#[global] Instance MetaStatusCode_eq_dec : EqDecision t.
Proof. solve_decision. Defined.
End MetaStatusCode.

(** [TopoStatusCode] (topology.proto): [TOPO_OK] and the others. *)
Module TopoStatusCode.
Inductive t : Set := TOPO_OK | OTHER (code : Z).
#[global] Instance TopoStatusCode_eq_dec : EqDecision t.
Proof. solve_decision. Defined.
End TopoStatusCode.

(** Modelled from the spec: the declaration of the enumeration
    [CURVEFS_ERROR] (client/error_code.h) is not among the sources.
    [OK], [INTERNAL], [NOTEXIST] and [NOTEMPTY] are the enumerators the
    coordinator names; [RPC_ERROR] and [PREPARE_FAILED] are the two
    further members of the error taxonomy of section 7; [OTHER] stands
    for any remaining enumerator. *)
Module CURVEFS_ERROR.
Inductive t : Set :=
| OK | INTERNAL | NOTEXIST | NOTEMPTY
| RPC_ERROR | PREPARE_FAILED
| OTHER (code : Z).
#[global] Instance CURVEFS_ERROR_eq_dec : EqDecision t.
Proof. solve_decision. Defined.
End CURVEFS_ERROR.

(** ** Protocol messages *)

(** The [Dentry] message, with the accessors the coordinator uses. *)
Module Dentry.
Record t : Set := mk {
  fsid : Z;
  inodeid : Z;
  parentinodeid : Z;
  name : string;
  txid : Z;
  flag : Z
}.

(** A default-constructed message. *)
Definition default : t := mk 0 0 0 "" 0 0.

Definition set_parentinodeid (v : Z) (d : t) : t :=
  mk (fsid d) (inodeid d) v (name d) (txid d) (flag d).
Definition set_name (v : string) (d : t) : t :=
  mk (fsid d) (inodeid d) (parentinodeid d) v (txid d) (flag d).
Definition set_txid (v : Z) (d : t) : t :=
  mk (fsid d) (inodeid d) (parentinodeid d) (name d) v (flag d).
Definition set_flag (v : Z) (d : t) : t :=
  mk (fsid d) (inodeid d) (parentinodeid d) (name d) (txid d) v.

#[global] Instance Dentry_eq_dec : EqDecision t.
Proof. solve_decision. Defined.
End Dentry.

(** The [PartitionTxId] message of the topology service. *)
Module PartitionTxId.
Record t : Set := mk { partitionid : Z; txid : Z }.

Definition default : t := mk 0 0.
Definition set_partitionid (v : Z) (p : t) : t := mk v (txid p).
Definition set_txid (v : Z) (p : t) : t := mk (partitionid p) v.

#[global] Instance PartitionTxId_eq_dec : EqDecision t.
Proof. solve_decision. Defined.
End PartitionTxId.

(** What client_operator.cpp uses but does not define: the three
    [DentryFlag] enumerators (32-bit masks) and the translation of a
    metaserver status into a client error code. *)
Class Externals := {
  TYPE_FILE_FLAG : Z;
  DELETE_MARK_FLAG : Z;
  TRANSACTION_PREPARE_FLAG : Z;
  MetaStatusCodeToCurvefsErrCode : MetaStatusCode.t -> CURVEFS_ERROR.t
}.

(** ** Collaborator calls

    One constructor per collaborator method the coordinator invokes; the
    index is the type of what the call hands back (status and the final
    value of its out-parameters).  A call with out-parameters carries
    their current value, so that a collaborator may leave them
    untouched. *)

(** A [std::shared_ptr<InodeWrapper>] is identified by the wrapper it
    points to. *)
Definition InodeWrapper := positive.

Inductive Call : Type -> Type :=
| MetaClient_GetTxId (fsId inodeId : Z) (partitionId txId : Z)
    : Call (MetaStatusCode.t * Z * Z)
| MetaClient_SetTxId (partitionId txId : Z) : Call unit
| MetaClient_PrepareRenameTx (dentrys : list Dentry.t)
    : Call MetaStatusCode.t
| MdsClient_CommitTx (txIds : list PartitionTxId.t) : Call TopoStatusCode.t
| DentryManager_GetDentry (parent : Z) (name : string) (out : Dentry.t)
    : Call (CURVEFS_ERROR.t * Dentry.t)
| DentryManager_ListDentry (parent : Z) (limit : Z)
    : Call (CURVEFS_ERROR.t * list Dentry.t)
| DentryManager_DeleteCache (parentId : Z) (name : string) : Call unit
| DentryManager_InsertOrReplaceCache (dentry : Dentry.t) : Call unit
| InodeManager_GetInode (inodeid : Z)
    : Call (CURVEFS_ERROR.t * InodeWrapper)
| InodeWrapper_UnLinkLocked (wrapper : InodeWrapper) : Call CURVEFS_ERROR.t.

(** Programs: finite trees of calls. *)
Inductive prog (A : Type) : Type :=
| Ret (a : A)
| Vis {X : Type} (c : Call X) (k : X -> prog A).

Arguments Ret {A} a.
Arguments Vis {A X} c k.

Fixpoint bind {A B : Type} (p : prog A) (f : A -> prog B) : prog B :=
  match p with
  | Ret a => f a
  | Vis c k => Vis c (fun x => bind (k x) f)
  end.

Definition call {X : Type} (c : Call X) : prog X := Vis c Ret.

Declare Scope prog_scope.
Delimit Scope prog_scope with prog.
Notation "'let*' x ':=' c 'in' k" := (bind c (fun x => k))
  (at level 10, x pattern, c at level 100, k at level 200) : prog_scope.
Notation "c ';;' k" := (bind c (fun _ => k))
  (at level 100, k at level 200, right associativity) : prog_scope.

(** ** Running a program *)

(** An observed call together with what it returned. *)
Inductive Event : Type :=
| Ev {X : Type} (c : Call X) (r : X).

(** The collaborators: given a call and their current state, an answer
    and their next state. *)
Definition Handler (W : Type) : Type := forall X : Type, Call X -> W -> X * W.

Record Outcome (A W : Type) : Type := mkOutcome {
  value : A;
  world : W;
  trace : list Event
}.

Arguments mkOutcome {A W} _ _ _.
Arguments value {A W} _.
Arguments world {A W} _.
Arguments trace {A W} _.

Fixpoint run {W A : Type} (h : Handler W) (p : prog A) (w : W)
  : Outcome A W :=
  match p with
  | Ret a => mkOutcome a w []
  | Vis c k =>
      let r := h _ c w in
      let o := run h (k (fst r)) (snd r) in
      mkOutcome (value o) (world o) (Ev c (fst r) :: trace o)
  end.

(** ** The rename coordinator *)

(** The data members of [RenameOperator] (the four collaborator
    pointers are the handler of [run]). *)
Record RenameOperator : Set := mkRenameOperator {
  fsId_ : Z;
  parentId_ : Z;
  name_ : string;
  newParentId_ : Z;
  newname_ : string;
  srcPartitionId_ : Z;
  dstPartitionId_ : Z;
  srcTxId_ : Z;
  dstTxId_ : Z;
  oldInodeId_ : Z;
  srcDentry_ : Dentry.t;
  dstDentry_ : Dentry.t;
  dentry_ : Dentry.t;
  newDentry_ : Dentry.t
}.

#[global] Instance RenameOperator_eq_dec : EqDecision RenameOperator.
Proof. solve_decision. Defined.

(** The constructor: ids and names from the arguments, counters at 0,
    the four [Dentry] members default-constructed. *)
Definition RenameOperator_new
  (fsId parentId : Z) (name : string) (newParentId : Z) (newname : string)
  : RenameOperator :=
  mkRenameOperator fsId parentId name newParentId newname
    0 0 0 0 0
    Dentry.default Dentry.default Dentry.default Dentry.default.

(** Assignments to single members. *)
Definition set_src (partitionId txId : Z) (op : RenameOperator)
  : RenameOperator :=
  mkRenameOperator (fsId_ op) (parentId_ op) (name_ op) (newParentId_ op)
    (newname_ op) partitionId (dstPartitionId_ op) txId (dstTxId_ op)
    (oldInodeId_ op) (srcDentry_ op) (dstDentry_ op) (dentry_ op)
    (newDentry_ op).

Definition set_dst (partitionId txId : Z) (op : RenameOperator)
  : RenameOperator :=
  mkRenameOperator (fsId_ op) (parentId_ op) (name_ op) (newParentId_ op)
    (newname_ op) (srcPartitionId_ op) partitionId (srcTxId_ op) txId
    (oldInodeId_ op) (srcDentry_ op) (dstDentry_ op) (dentry_ op)
    (newDentry_ op).

Definition set_oldInodeId (v : Z) (op : RenameOperator) : RenameOperator :=
  mkRenameOperator (fsId_ op) (parentId_ op) (name_ op) (newParentId_ op)
    (newname_ op) (srcPartitionId_ op) (dstPartitionId_ op) (srcTxId_ op)
    (dstTxId_ op) v (srcDentry_ op) (dstDentry_ op) (dentry_ op)
    (newDentry_ op).

Definition set_srcDentry (v : Dentry.t) (op : RenameOperator)
  : RenameOperator :=
  mkRenameOperator (fsId_ op) (parentId_ op) (name_ op) (newParentId_ op)
    (newname_ op) (srcPartitionId_ op) (dstPartitionId_ op) (srcTxId_ op)
    (dstTxId_ op) (oldInodeId_ op) v (dstDentry_ op) (dentry_ op)
    (newDentry_ op).

Definition set_dstDentry (v : Dentry.t) (op : RenameOperator)
  : RenameOperator :=
  mkRenameOperator (fsId_ op) (parentId_ op) (name_ op) (newParentId_ op)
    (newname_ op) (srcPartitionId_ op) (dstPartitionId_ op) (srcTxId_ op)
    (dstTxId_ op) (oldInodeId_ op) (srcDentry_ op) v (dentry_ op)
    (newDentry_ op).

Definition set_dentry (v : Dentry.t) (op : RenameOperator)
  : RenameOperator :=
  mkRenameOperator (fsId_ op) (parentId_ op) (name_ op) (newParentId_ op)
    (newname_ op) (srcPartitionId_ op) (dstPartitionId_ op) (srcTxId_ op)
    (dstTxId_ op) (oldInodeId_ op) (srcDentry_ op) (dstDentry_ op) v
    (newDentry_ op).

Definition set_newDentry (v : Dentry.t) (op : RenameOperator)
  : RenameOperator :=
  mkRenameOperator (fsId_ op) (parentId_ op) (name_ op) (newParentId_ op)
    (newname_ op) (srcPartitionId_ op) (dstPartitionId_ op) (srcTxId_ op)
    (dstTxId_ op) (oldInodeId_ op) (srcDentry_ op) (dstDentry_ op)
    (dentry_ op) v.

Section Coordinator.
Context {E : Externals}.
Open Scope prog_scope.

(** [GetTxId(fsId, inodeId, partitionId, txId)]: one lookup through the
    metaserver client, its status translated.  (The [LOG_ERROR] lines
    only write to the log and are left out throughout.) *)
Definition GetTxId4 (fsId inodeId : Z) (partitionId txId : Z)
  : prog (CURVEFS_ERROR.t * Z * Z) :=
  let* r := call (MetaClient_GetTxId fsId inodeId partitionId txId) in
  Ret (MetaStatusCodeToCurvefsErrCode (fst (fst r)), snd (fst r), snd r).

(** [SetTxId(partitionId, txId)]. *)
Definition SetTxId (partitionId txId : Z) : prog unit :=
  call (MetaClient_SetTxId partitionId txId).

(** [GetTxId()]: the source parent's partition and counter, then the
    destination parent's. *)
Definition GetTxId (op : RenameOperator)
  : prog (CURVEFS_ERROR.t * RenameOperator) :=
  let* r1 := GetTxId4 (fsId_ op) (parentId_ op)
                      (srcPartitionId_ op) (srcTxId_ op) in
  let op1 := set_src (snd (fst r1)) (snd r1) op in
  if decide (fst (fst r1) <> CURVEFS_ERROR.OK) then
    Ret (fst (fst r1), op1)
  else
    let* r2 := GetTxId4 (fsId_ op1) (newParentId_ op1)
                        (dstPartitionId_ op1) (dstTxId_ op1) in
    Ret (fst (fst r2), set_dst (snd (fst r2)) (snd r2) op1).

(** [CheckOverwrite()]. *)
Definition CheckOverwrite (op : RenameOperator) : prog CURVEFS_ERROR.t :=
  if decide (Z.land (Dentry.flag (dstDentry_ op)) TYPE_FILE_FLAG <> 0) then
    Ret CURVEFS_ERROR.OK
  else
    let* r := call (DentryManager_ListDentry
                      (Dentry.inodeid (dstDentry_ op)) 1) in
    if decide (fst r = CURVEFS_ERROR.OK /\ snd r <> []) then
      Ret CURVEFS_ERROR.NOTEMPTY
    else
      Ret (fst r).

(** [Precheck()]. *)
Definition Precheck (op : RenameOperator)
  : prog (CURVEFS_ERROR.t * RenameOperator) :=
  let* r1 := call (DentryManager_GetDentry (parentId_ op) (name_ op)
                                           (srcDentry_ op)) in
  let op1 := set_srcDentry (snd r1) op in
  if decide (fst r1 <> CURVEFS_ERROR.OK) then
    Ret (fst r1, op1)
  else
    let* r2 := call (DentryManager_GetDentry (newParentId_ op1) (newname_ op1)
                                             (dstDentry_ op1)) in
    let op2 := set_dstDentry (snd r2) op1 in
    if decide (fst r2 = CURVEFS_ERROR.NOTEXIST) then
      Ret (CURVEFS_ERROR.OK, op2)
    else if decide (fst r2 = CURVEFS_ERROR.OK) then
      let op3 := set_oldInodeId (Dentry.inodeid (dstDentry_ op2)) op2 in
      let* rc := CheckOverwrite op3 in
      Ret (rc, op3)
    else
      Ret (fst r2, op2).

(** [PrepareRenameTx(dentrys)]: one submission through the metaserver
    client, its status translated. *)
Definition PrepareRenameTx (dentrys : list Dentry.t) : prog CURVEFS_ERROR.t :=
  let* rc := call (MetaClient_PrepareRenameTx dentrys) in
  Ret (MetaStatusCodeToCurvefsErrCode rc).

(** The two entries [PrepareTx()] stages from [srcDentry_]. *)
Definition staged_dentry (op : RenameOperator) : Dentry.t :=
  let d := srcDentry_ op in
  let d := Dentry.set_txid (u64_add (srcTxId_ op) 1) d in
  Dentry.set_flag
    (Z.lor (Z.lor (Dentry.flag d) DELETE_MARK_FLAG) TRANSACTION_PREPARE_FLAG)
    d.

Definition staged_newDentry (op : RenameOperator) : Dentry.t :=
  let d := srcDentry_ op in
  let d := Dentry.set_parentinodeid (newParentId_ op) d in
  let d := Dentry.set_name (newname_ op) d in
  let d := Dentry.set_txid (u64_add (dstTxId_ op) 1) d in
  Dentry.set_flag (Z.lor (Dentry.flag d) TRANSACTION_PREPARE_FLAG) d.

(** The coordinator after staging. *)
Definition staged (op : RenameOperator) : RenameOperator :=
  set_newDentry (staged_newDentry op) (set_dentry (staged_dentry op) op).

(** [PrepareTx()]. *)
Definition PrepareTx (op : RenameOperator)
  : prog (CURVEFS_ERROR.t * RenameOperator) :=
  let op1 := set_dentry (staged_dentry op) op in
  let op2 := set_newDentry (staged_newDentry op1) op1 in
  let dentrys := [dentry_ op2] in
  if decide (srcPartitionId_ op2 = dstPartitionId_ op2) then
    let dentrys := dentrys ++ [newDentry_ op2] in
    let* rc := PrepareRenameTx dentrys in
    Ret (rc, op2)
  else
    let* rc := PrepareRenameTx dentrys in
    if decide (rc = CURVEFS_ERROR.OK) then
      let dentrys := <[0%nat := newDentry_ op2]> dentrys in
      let* rc := PrepareRenameTx dentrys in
      Ret (rc, op2)
    else
      Ret (rc, op2).

(** The batch [CommitTx()] builds. *)
Definition commit_txIds (op : RenameOperator) : list PartitionTxId.t :=
  let partitionTxId := PartitionTxId.default in
  let partitionTxId :=
    PartitionTxId.set_partitionid (srcPartitionId_ op) partitionTxId in
  let partitionTxId :=
    PartitionTxId.set_txid (u64_add (srcTxId_ op) 1) partitionTxId in
  let txIds := [partitionTxId] in
  if decide (srcPartitionId_ op <> dstPartitionId_ op) then
    let partitionTxId :=
      PartitionTxId.set_partitionid (dstPartitionId_ op) partitionTxId in
    let partitionTxId :=
      PartitionTxId.set_txid (u64_add (dstTxId_ op) 1) partitionTxId in
    txIds ++ [partitionTxId]
  else
    txIds.

(** [CommitTx()]. *)
Definition CommitTx (op : RenameOperator) : prog CURVEFS_ERROR.t :=
  let* rc := call (MdsClient_CommitTx (commit_txIds op)) in
  if decide (rc <> TopoStatusCode.TOPO_OK) then
    Ret CURVEFS_ERROR.INTERNAL
  else
    Ret CURVEFS_ERROR.OK.

(** [UnlinkOldInode()]. *)
Definition UnlinkOldInode (op : RenameOperator) : prog unit :=
  if decide (oldInodeId_ op = 0) then
    Ret tt
  else
    let* r := call (InodeManager_GetInode (oldInodeId_ op)) in
    if decide (fst r <> CURVEFS_ERROR.OK) then
      Ret tt
    else
      let* rc := call (InodeWrapper_UnLinkLocked (snd r)) in
      Ret tt.

(** [UpdateCache()]. *)
Definition UpdateCache (op : RenameOperator) : prog unit :=
  call (DentryManager_DeleteCache (parentId_ op) (name_ op)) ;;
  call (DentryManager_InsertOrReplaceCache (newDentry_ op)) ;;
  SetTxId (srcPartitionId_ op) (u64_add (srcTxId_ op) 1) ;;
  SetTxId (dstPartitionId_ op) (u64_add (dstTxId_ op) 1).

End Coordinator.

(** ** The rename entry point *)

Section Entry.
Context {E : Externals}.
Open Scope prog_scope.

(** Modelled from the spec: the caller that drives a [RenameOperator]
    through its steps is not among the sources.  Section 4.1: the steps
    run in the order resolve transaction ids, precheck, prepare, commit,
    unlink, reconcile caches; the first failing step aborts the call
    with that step's outcome; after a successful commit the two
    remaining steps run and the call succeeds whatever they do. *)
Definition Rename
  (fsId parentId : Z) (name : string) (newParentId : Z) (newname : string)
  : prog (CURVEFS_ERROR.t * RenameOperator) :=
  let op := RenameOperator_new fsId parentId name newParentId newname in
  let* r := GetTxId op in
  if decide (fst r <> CURVEFS_ERROR.OK) then Ret r else
  let* r := Precheck (snd r) in
  if decide (fst r <> CURVEFS_ERROR.OK) then Ret r else
  let* r := PrepareTx (snd r) in
  if decide (fst r <> CURVEFS_ERROR.OK) then Ret r else
  let op := snd r in
  let* rc := CommitTx op in
  if decide (rc <> CURVEFS_ERROR.OK) then Ret (rc, op) else
  UnlinkOldInode op ;;
  UpdateCache op ;;
  Ret (CURVEFS_ERROR.OK, op).

End Entry.

(** ** Reading a trace *)

(** The batch of a prepare submission. *)
Definition prepare_batch (e : Event) : option (list Dentry.t) :=
  match e with
  | Ev c _ =>
      match c with
      | MetaClient_PrepareRenameTx dentrys => Some dentrys
      | _ => None
      end
  end.

(** The batch of a commit call. *)
Definition commit_batch (e : Event) : option (list PartitionTxId.t) :=
  match e with
  | Ev c _ =>
      match c with
      | MdsClient_CommitTx txIds => Some txIds
      | _ => None
      end
  end.

(** The arguments and status of a dentry lookup. *)
Definition dentry_lookup (e : Event)
  : option (Z * string * CURVEFS_ERROR.t) :=
  match e with
  | Ev c r =>
      match c in Call X return X -> option (Z * string * CURVEFS_ERROR.t) with
      | DentryManager_GetDentry parent name _ =>
          fun r => Some (parent, name, fst r)
      | _ => fun _ => None
      end r
  end.

(** The arguments, status and result size of a children listing. *)
Definition dentry_listing (e : Event)
  : option (Z * Z * CURVEFS_ERROR.t * list Dentry.t) :=
  match e with
  | Ev c r =>
      match c in Call X
            return X -> option (Z * Z * CURVEFS_ERROR.t * list Dentry.t) with
      | DentryManager_ListDentry parent limit =>
          fun r => Some (parent, limit, fst r, snd r)
      | _ => fun _ => None
      end r
  end.

Definition is_txid_lookup (e : Event) : bool :=
  match e with
  | Ev c _ =>
      match c with
      | MetaClient_GetTxId _ _ _ _ => true
      | _ => false
      end
  end.

(** The pair handed to [SetTxId]. *)
Definition settxid_call (e : Event) : option (Z * Z) :=
  match e with
  | Ev c _ =>
      match c with
      | MetaClient_SetTxId partitionId txId => Some (partitionId, txId)
      | _ => None
      end
  end.

(** The entry handed to [InsertOrReplaceCache]. *)
Definition cache_insert (e : Event) : option Dentry.t :=
  match e with
  | Ev c _ =>
      match c with
      | DentryManager_InsertOrReplaceCache dentry => Some dentry
      | _ => None
      end
  end.

(** The key handed to [DeleteCache]. *)
Definition cache_delete (e : Event) : option (Z * string) :=
  match e with
  | Ev c _ =>
      match c with
      | DentryManager_DeleteCache parentId name => Some (parentId, name)
      | _ => None
      end
  end.

(** The inode id handed to [GetInode]. *)
Definition inode_lookup (e : Event) : option Z :=
  match e with
  | Ev c _ =>
      match c with
      | InodeManager_GetInode inodeid => Some inodeid
      | _ => None
      end
  end.

(** The status a prepare submission came back with. *)
Definition prepare_status (e : Event) : option MetaStatusCode.t :=
  match e with
  | Ev c r =>
      match c in Call X return X -> option MetaStatusCode.t with
      | MetaClient_PrepareRenameTx _ => fun r => Some r
      | _ => fun _ => None
      end r
  end.

(** Calls that read through the dentry manager. *)
Definition is_dentry_read (e : Event) : bool :=
  match e with
  | Ev c _ =>
      match c with
      | DentryManager_GetDentry _ _ _ => true
      | DentryManager_ListDentry _ _ => true
      | _ => false
      end
  end.

Definition prepare_submissions (tr : list Event) : list (list Dentry.t) :=
  omap prepare_batch tr.

Definition commit_calls (tr : list Event) : list (list PartitionTxId.t) :=
  omap commit_batch tr.

Definition dentry_lookups (tr : list Event)
  : list (Z * string * CURVEFS_ERROR.t) :=
  omap dentry_lookup tr.

Definition dentry_listings (tr : list Event)
  : list (Z * Z * CURVEFS_ERROR.t * list Dentry.t) :=
  omap dentry_listing tr.

Definition settxid_calls (tr : list Event) : list (Z * Z) :=
  omap settxid_call tr.

Definition cache_inserts (tr : list Event) : list Dentry.t :=
  omap cache_insert tr.

Definition cache_deletes (tr : list Event) : list (Z * string) :=
  omap cache_delete tr.

Definition inode_lookups (tr : list Event) : list Z :=
  omap inode_lookup tr.

Definition prepare_statuses (tr : list Event) : list MetaStatusCode.t :=
  omap prepare_status tr.

(** [uint32_t] values. *)
Definition is_u32 (a : Z) : Prop := 0 <= a < 2 ^ 32.

(** ** The in-memory inode storage *)

Module MemoryInodeStorage.
Section Storage.

(** The [Inode] message and the key type of the container are declared
    in headers that are not among the sources: they are parameters, with
    [InodeKey] the key built from an inode. *)
Context {Inode Key : Type} `{Countable Key}.
Variable InodeKey : Inode -> Key.

(** A [std::shared_ptr<Inode>]: the address of an [Inode] object. *)
Definition ptr := positive.

(** [inodeMap_] maps keys to shared pointers; [objects] holds the
    [Inode] each live pointer refers to.  (The lock guards serialise the
    methods and are not represented.) *)
Record t : Type := mk {
  inodeMap_ : gmap Key ptr;
  objects : gmap ptr Inode
}.

Definition empty : t := mk ∅ ∅.

(** [Insert(inode)]: [emplace] inserts only when the key is absent; the
    object made by [make_shared] is released on return otherwise. *)
Definition Insert (inode : Inode) (s : t) : MetaStatusCode.t * t :=
  let newInode := fresh (dom (objects s)) in
  match inodeMap_ s !! InodeKey inode with
  | Some _ => (MetaStatusCode.INODE_EXIST, s)
  | None =>
      (MetaStatusCode.OK,
       mk (<[InodeKey inode := newInode]> (inodeMap_ s))
          (<[newInode := inode]> (objects s)))
  end.

(** [Get(key, inode)]: the stored pointer itself. *)
Definition Get (key : Key) (s : t) : MetaStatusCode.t * option ptr :=
  match inodeMap_ s !! key with
  | None => (MetaStatusCode.NOT_FOUND, None)
  | Some p => (MetaStatusCode.OK, Some p)
  end.

(** [GetCopy(key, inode)]: a copy of the object pointed to. *)
Definition GetCopy (key : Key) (s : t) : MetaStatusCode.t * option Inode :=
  match inodeMap_ s !! key with
  | None => (MetaStatusCode.NOT_FOUND, None)
  | Some p => (MetaStatusCode.OK, objects s !! p)
  end.

(** [Delete(key)]: the entry is erased; the object stays alive for any
    holder of its pointer. *)
Definition Delete (key : Key) (s : t) : MetaStatusCode.t * t :=
  match inodeMap_ s !! key with
  | Some _ => (MetaStatusCode.OK, mk (delete key (inodeMap_ s)) (objects s))
  | None => (MetaStatusCode.NOT_FOUND, s)
  end.

(** [Update(inode)]: assigns through the stored pointer. *)
Definition Update (inode : Inode) (s : t) : MetaStatusCode.t * t :=
  match inodeMap_ s !! InodeKey inode with
  | None => (MetaStatusCode.NOT_FOUND, s)
  | Some p => (MetaStatusCode.OK, mk (inodeMap_ s) (<[p := inode]> (objects s)))
  end.

(** [Count()]: the [size_t] size of the container, returned as [int]. *)
Definition Count (s : t) : Z := to_int (Z.of_nat (size (inodeMap_ s))).

(** [GetContainer()]: the container itself. *)
Definition GetContainer (s : t) : gmap Key ptr := inodeMap_ s.

(** The [inodeid()] accessor of the [Inode] message. *)
Variable inodeid : Inode -> Z.

(** [GetInodeIdList(inodeIdList)]: walks the container and appends the
    id of each stored inode to the list it is given.  The order of the
    walk is that of the container, which the source does not fix: it is
    the order of [map_to_list] here, and only statements that do not
    depend on it are made. *)
Definition GetInodeIdList (inodeIdList : list Z) (s : t) : list Z :=
  inodeIdList ++
  omap (fun kp => inodeid <$> objects s !! snd kp) (map_to_list (inodeMap_ s)).

(** What the methods maintain: every stored pointer refers to a live
    object, and no object is stored under two keys. *)
Definition wf (s : t) : Prop :=
  (forall k p, inodeMap_ s !! k = Some p -> is_Some (objects s !! p)) /\
  (forall k1 k2 p,
     inodeMap_ s !! k1 = Some p -> inodeMap_ s !! k2 = Some p -> k1 = k2).

(** Sequences of modifying calls. *)
Inductive Op : Type :=
| OpInsert (inode : Inode)
| OpUpdate (inode : Inode)
| OpDelete (key : Key).

Definition step (s : t) (o : Op) : t :=
  match o with
  | OpInsert inode => snd (Insert inode s)
  | OpUpdate inode => snd (Update inode s)
  | OpDelete key => snd (Delete key s)
  end.

Definition exec (ops : list Op) (s : t) : t := foldl step s ops.

End Storage.
End MemoryInodeStorage.

(** ** A scripted collaborator, for running the coordinator

    In the manner of the mock clients of the unit tests: every answer is
    fixed in advance; the collaborator state counts the calls served so
    far, so that successive prepare submissions can be answered
    differently. *)

Record Script : Type := mkScript {
  txid_answer : Z -> MetaStatusCode.t * Z * Z;
  prepare_answer : nat -> MetaStatusCode.t;
  commit_answer : TopoStatusCode.t;
  dentry_answer : Z -> string -> option Dentry.t;
  list_answer : Z -> CURVEFS_ERROR.t * list Dentry.t;
  inode_answer : Z -> CURVEFS_ERROR.t * InodeWrapper;
  unlink_answer : CURVEFS_ERROR.t
}.

Definition scripted (s : Script) : Handler nat :=
  fun X c n =>
    match c in Call X return X * nat with
    | MetaClient_GetTxId _ inodeId _ _ => (txid_answer s inodeId, S n)
    | MetaClient_SetTxId _ _ => (tt, S n)
    | MetaClient_PrepareRenameTx _ => (prepare_answer s n, S n)
    | MdsClient_CommitTx _ => (commit_answer s, S n)
    | DentryManager_GetDentry parent name out =>
        match dentry_answer s parent name with
        | Some d => ((CURVEFS_ERROR.OK, d), S n)
        | None => ((CURVEFS_ERROR.NOTEXIST, out), S n)
        end
    | DentryManager_ListDentry parent _ => (list_answer s parent, S n)
    | DentryManager_DeleteCache _ _ => (tt, S n)
    | DentryManager_InsertOrReplaceCache _ => (tt, S n)
    | InodeManager_GetInode inodeid => (inode_answer s inodeid, S n)
    | InodeWrapper_UnLinkLocked _ => (unlink_answer s, S n)
    end.

(** Sample values for what the coordinator's source leaves open: flag
    masks on three distinct bits, and a translation that keeps success
    and absence apart from the other statuses. *)
Definition sample_externals : Externals := {|
  TYPE_FILE_FLAG := 1;
  DELETE_MARK_FLAG := 2;
  TRANSACTION_PREPARE_FLAG := 4;
  MetaStatusCodeToCurvefsErrCode := fun rc =>
    match rc with
    | MetaStatusCode.OK => CURVEFS_ERROR.OK
    | MetaStatusCode.NOT_FOUND => CURVEFS_ERROR.NOTEXIST
    | MetaStatusCode.INODE_EXIST => CURVEFS_ERROR.OTHER 0
    | MetaStatusCode.OTHER code => CURVEFS_ERROR.OTHER code
    end
|}.

(** The directory tree of the samples: [/a] is inode 10 on partition 1
    (counter 5), [/b] is inode 20 on partition 2 (counter 8); [/a/foo]
    is the regular file 100, [/b/bar] the directory 200 and [/b/baz] the
    directory 300, which has one child. *)
Definition sample_foo : Dentry.t := Dentry.mk 1 100 10 "foo" 3 1.
Definition sample_bar : Dentry.t := Dentry.mk 1 200 20 "bar" 7 0.
Definition sample_baz : Dentry.t := Dentry.mk 1 300 20 "baz" 7 0.
Definition sample_child : Dentry.t := Dentry.mk 1 301 300 "x" 7 1.

Definition sample_script : Script := {|
  txid_answer := fun inodeId =>
    if decide (inodeId = 10) then (MetaStatusCode.OK, 1, 5)
    else if decide (inodeId = 20) then (MetaStatusCode.OK, 2, 8)
    else (MetaStatusCode.NOT_FOUND, 0, 0);
  prepare_answer := fun _ => MetaStatusCode.OK;
  commit_answer := TopoStatusCode.TOPO_OK;
  dentry_answer := fun parent name =>
    if decide (parent = 10 /\ name = "foo") then Some sample_foo
    else if decide (parent = 20 /\ name = "bar") then Some sample_bar
    else if decide (parent = 20 /\ name = "baz") then Some sample_baz
    else None;
  list_answer := fun parent =>
    if decide (parent = 300) then (CURVEFS_ERROR.OK, [sample_child])
    else (CURVEFS_ERROR.OK, []);
  inode_answer := fun inodeid => (CURVEFS_ERROR.OK, 1%positive);
  unlink_answer := CURVEFS_ERROR.OK
|}.

(** A coordinator that has resolved its ids and loaded the source. *)
Definition sample_same_partition : RenameOperator :=
  set_srcDentry sample_foo
    (set_dst 1 5 (set_src 1 5 (RenameOperator_new 1 10 "foo" 10 "bar"))).

Definition sample_cross_partition : RenameOperator :=
  set_srcDentry sample_foo
    (set_dst 2 8 (set_src 1 5 (RenameOperator_new 1 10 "foo" 20 "new"))).

(** Answers for the failure paths: a second prepare submission that
    is refused, a children listing that fails, a parent the metaserver
    client cannot resolve. *)
Definition sample_script_second_prepare_fails : Script := {|
  txid_answer := txid_answer sample_script;
  prepare_answer := fun n =>
    match n with
    | O => MetaStatusCode.OK
    | S _ => MetaStatusCode.OTHER 7
    end;
  commit_answer := commit_answer sample_script;
  dentry_answer := dentry_answer sample_script;
  list_answer := list_answer sample_script;
  inode_answer := inode_answer sample_script;
  unlink_answer := unlink_answer sample_script
|}.

Definition sample_script_listing_fails : Script := {|
  txid_answer := txid_answer sample_script;
  prepare_answer := prepare_answer sample_script;
  commit_answer := commit_answer sample_script;
  dentry_answer := dentry_answer sample_script;
  list_answer := fun _ => (CURVEFS_ERROR.INTERNAL, []);
  inode_answer := inode_answer sample_script;
  unlink_answer := unlink_answer sample_script
|}.

Definition sample_script_inode_lookup_fails : Script := {|
  txid_answer := txid_answer sample_script;
  prepare_answer := prepare_answer sample_script;
  commit_answer := commit_answer sample_script;
  dentry_answer := dentry_answer sample_script;
  list_answer := list_answer sample_script;
  inode_answer := fun _ => (CURVEFS_ERROR.NOTEXIST, 1%positive);
  unlink_answer := unlink_answer sample_script
|}.

(** A metaserver client that answers every id lookup with the status
    [rc] and leaves the out-parameters at 0. *)
Definition sample_script_txid_status (rc : MetaStatusCode.t) : Script := {|
  txid_answer := fun _ => (rc, 0, 0);
  prepare_answer := prepare_answer sample_script;
  commit_answer := commit_answer sample_script;
  dentry_answer := dentry_answer sample_script;
  list_answer := list_answer sample_script;
  inode_answer := inode_answer sample_script;
  unlink_answer := unlink_answer sample_script
|}.

(** The coordinator of a rename out of a directory (inode 99) that the
    metaserver client cannot resolve. *)
Definition sample_unresolved : RenameOperator :=
  RenameOperator_new 1 99 "foo" 20 "bar".

(** A storage of inodes [(id, link count)] keyed by their id, holding
    inode 5. *)
Definition sample_storage : @MemoryInodeStorage.t (Z * Z) Z _ _ :=
  snd (MemoryInodeStorage.Insert fst (5, 1) MemoryInodeStorage.empty).

(** The same storage after a second [Insert], of inode 6. *)
Definition sample_storage2 : @MemoryInodeStorage.t (Z * Z) Z _ _ :=
  snd (MemoryInodeStorage.Insert fst (6, 1) sample_storage).

(** Collaborators that answer as [s] does, except that every dentry
    lookup under the parent [parent] comes back with the status [rc]
    and an untouched out-parameter. *)
Definition scripted_lookup_status
  (parent : Z) (rc : CURVEFS_ERROR.t) (s : Script) : Handler nat :=
  fun X c n =>
    match c in Call X return X * nat -> X * nat with
    | DentryManager_GetDentry parent' _ out =>
        fun answer =>
          if decide (parent' = parent) then ((rc, out), S n) else answer
    | _ => fun answer => answer
    end (scripted s X c n).

(** A coordinator that has resolved its ids for [/a/foo] to [/b/bar],
    and one for [/a/foo] to the new name [/b/new]. *)
Definition sample_resolved_bar : RenameOperator :=
  set_dst 2 8 (set_src 1 5 (RenameOperator_new 1 10 "foo" 20 "bar")).

Definition sample_resolved_new : RenameOperator :=
  set_dst 2 8 (set_src 1 5 (RenameOperator_new 1 10 "foo" 20 "new")).



(** * Properties *)

(** ** General facts about [run] *)

Lemma run_bind {W A B : Type} (h : Handler W) (p : prog A) (f : A -> prog B)
  (w : W) :
  run h (bind p f) w =
  let o1 := run h p w in
  let o2 := run h (f (value o1)) (world o1) in
  mkOutcome (value o2) (world o2) (trace o1 ++ trace o2).
Proof.
  revert w. induction p as [a | X c k IH]; intros w; simpl.
  - by destruct (run h (f a) w).
  - rewrite IH. reflexivity.
Qed.

Lemma u64_add_no_wrap (a : Z) :
  is_u64 a -> a <> UINT64_MODULUS - 1 -> u64_add a 1 = a + 1.
Proof.
  unfold is_u64, u64_add, UINT64_MODULUS. intros Ha Hmax.
  apply Z.mod_small. lia.
Qed.

Lemma u64_add_is_u64 (a b : Z) : is_u64 (u64_add a b).
Proof.
  unfold is_u64, u64_add, UINT64_MODULUS. apply Z.mod_pos_bound. lia.
Qed.

(** ** The prepare step *)

Section PrepareTx_facts.
Context {E : Externals} {W : Type}.
Variables (h : Handler W) (w : W) (op : RenameOperator).

Lemma PrepareTx_same_partition :
  srcPartitionId_ op = dstPartitionId_ op ->
  let batch := [staged_dentry op; staged_newDentry op] in
  let r := h _ (MetaClient_PrepareRenameTx batch) w in
  run h (PrepareTx op) w =
  mkOutcome (MetaStatusCodeToCurvefsErrCode (fst r), staged op) (snd r)
    [Ev (MetaClient_PrepareRenameTx batch) (fst r)].
Proof.
  intros Heq. unfold PrepareTx.
  cbn [srcPartitionId_ dstPartitionId_ set_newDentry set_dentry].
  destruct (decide _) as [_ | Hne]; [| done].
  reflexivity.
Qed.

Lemma PrepareTx_cross_partition :
  srcPartitionId_ op <> dstPartitionId_ op ->
  let r1 := h _ (MetaClient_PrepareRenameTx [staged_dentry op]) w in
  let r2 := h _ (MetaClient_PrepareRenameTx [staged_newDentry op]) (snd r1) in
  run h (PrepareTx op) w =
  if decide (MetaStatusCodeToCurvefsErrCode (fst r1) = CURVEFS_ERROR.OK) then
    mkOutcome (MetaStatusCodeToCurvefsErrCode (fst r2), staged op) (snd r2)
      [Ev (MetaClient_PrepareRenameTx [staged_dentry op]) (fst r1);
       Ev (MetaClient_PrepareRenameTx [staged_newDentry op]) (fst r2)]
  else
    mkOutcome (MetaStatusCodeToCurvefsErrCode (fst r1), staged op) (snd r1)
      [Ev (MetaClient_PrepareRenameTx [staged_dentry op]) (fst r1)].
Proof.
  intros Hne. unfold PrepareTx.
  cbn [srcPartitionId_ dstPartitionId_ set_newDentry set_dentry].
  destruct (decide (_ = _)) as [Heq | _]; [done |].
  cbn. destruct (decide _); reflexivity.
Qed.

(** C1.  [PrepareTx] on one partition issues a single prepare
    submission whose batch is the source tombstone followed by the new
    destination entry, and nothing else.  On two partitions it first
    submits the tombstone alone; the new entry is submitted, alone and
    second, exactly when that first submission came back as [OK]. *)
Theorem PrepareTx_submissions :
  let tombstone := staged_dentry op in
  let entry := staged_newDentry op in
  let tr := trace (run h (PrepareTx op) w) in
  (srcPartitionId_ op = dstPartitionId_ op ->
     prepare_submissions tr = [[tombstone; entry]] /\
     exists r, tr = [Ev (MetaClient_PrepareRenameTx [tombstone; entry]) r])
  /\
  (srcPartitionId_ op <> dstPartitionId_ op ->
     exists r1,
       (MetaStatusCodeToCurvefsErrCode r1 = CURVEFS_ERROR.OK /\
        prepare_submissions tr = [[tombstone]; [entry]] /\
        exists r2,
          tr = [Ev (MetaClient_PrepareRenameTx [tombstone]) r1;
                Ev (MetaClient_PrepareRenameTx [entry]) r2])
       \/
       (MetaStatusCodeToCurvefsErrCode r1 <> CURVEFS_ERROR.OK /\
        prepare_submissions tr = [[tombstone]] /\
        tr = [Ev (MetaClient_PrepareRenameTx [tombstone]) r1])).
Proof.
  cbv zeta. split; intros Hp.
  - rewrite PrepareTx_same_partition by done. cbn. eauto.
  - rewrite PrepareTx_cross_partition by done. cbv zeta.
    eexists. destruct (decide _) as [Hok | Hfail]; [left | right]; cbn; eauto.
Qed.

(** C2.  After [PrepareTx] the staged tombstone is [srcDentry_] with
    its transaction id replaced by [srcTxId_ + 1] and its flags or-ed
    with [DELETE_MARK_FLAG] and [TRANSACTION_PREPARE_FLAG]; the staged
    new entry is [srcDentry_] with parent [newParentId_], name
    [newname_], transaction id [dstTxId_ + 1] and flags or-ed with
    [TRANSACTION_PREPARE_FLAG].  Every other field is that of
    [srcDentry_].  The sums are those of [uint64_t]: they are the
    integer successor except at the largest value. *)
Theorem PrepareTx_staged_entries :
  let src := srcDentry_ op in
  let op' := snd (value (run h (PrepareTx op) w)) in
  dentry_ op' =
    Dentry.mk (Dentry.fsid src) (Dentry.inodeid src)
      (Dentry.parentinodeid src) (Dentry.name src)
      (u64_add (srcTxId_ op) 1)
      (Z.lor (Z.lor (Dentry.flag src) DELETE_MARK_FLAG)
             TRANSACTION_PREPARE_FLAG)
  /\
  newDentry_ op' =
    Dentry.mk (Dentry.fsid src) (Dentry.inodeid src)
      (newParentId_ op) (newname_ op)
      (u64_add (dstTxId_ op) 1)
      (Z.lor (Dentry.flag src) TRANSACTION_PREPARE_FLAG)
  /\
  (is_u64 (srcTxId_ op) -> srcTxId_ op <> UINT64_MODULUS - 1 ->
     Dentry.txid (dentry_ op') = srcTxId_ op + 1)
  /\
  (is_u64 (dstTxId_ op) -> dstTxId_ op <> UINT64_MODULUS - 1 ->
     Dentry.txid (newDentry_ op') = dstTxId_ op + 1).
Proof.
  cbv zeta.
  assert (Hop : snd (value (run h (PrepareTx op) w)) = staged op).
  { destruct (decide (srcPartitionId_ op = dstPartitionId_ op)) as [Hp | Hp].
    - by rewrite PrepareTx_same_partition.
    - rewrite PrepareTx_cross_partition by done. cbv zeta.
      by destruct (decide _). }
  rewrite Hop. cbn.
  repeat split; intros; by apply u64_add_no_wrap.
Qed.

(** C6.  On two partitions, when the tombstone submission succeeds and
    the submission of the new entry fails, [PrepareTx] returns the
    status of the second submission and its whole activity is these two
    prepare submissions: no third submission and no other call to any
    collaborator. *)
Theorem PrepareTx_second_submission_fails :
  let tombstone := staged_dentry op in
  let entry := staged_newDentry op in
  let r1 := h _ (MetaClient_PrepareRenameTx [tombstone]) w in
  let r2 := h _ (MetaClient_PrepareRenameTx [entry]) (snd r1) in
  let o := run h (PrepareTx op) w in
  srcPartitionId_ op <> dstPartitionId_ op ->
  MetaStatusCodeToCurvefsErrCode (fst r1) = CURVEFS_ERROR.OK ->
  MetaStatusCodeToCurvefsErrCode (fst r2) <> CURVEFS_ERROR.OK ->
  fst (value o) = MetaStatusCodeToCurvefsErrCode (fst r2) /\
  fst (value o) <> CURVEFS_ERROR.OK /\
  trace o = [Ev (MetaClient_PrepareRenameTx [tombstone]) (fst r1);
             Ev (MetaClient_PrepareRenameTx [entry]) (fst r2)] /\
  prepare_submissions (trace o) = [[tombstone]; [entry]] /\
  length (trace o) = 2%nat.
Proof.
  cbv zeta. intros Hp Hok Hfail.
  rewrite PrepareTx_cross_partition by done. cbv zeta.
  destruct (decide _) as [_ | Hno]; [| done].
  cbn. done.
Qed.

End PrepareTx_facts.

(** ** The commit step *)

Section CommitTx_facts.
Context {E : Externals} {W : Type}.
Variables (h : Handler W) (w : W) (op : RenameOperator).

(** C3.  [CommitTx] issues one call to the cluster manager.  Its batch
    is the pair of the source partition with [srcTxId_ + 1], followed by
    the pair of the destination partition with [dstTxId_ + 1] exactly
    when the two partition ids differ.  [CommitTx] returns [OK] when the
    call answers [TOPO_OK] and [INTERNAL] otherwise.  The sums are those
    of [uint64_t]. *)
Theorem CommitTx_batch :
  let src :=
    PartitionTxId.mk (srcPartitionId_ op) (u64_add (srcTxId_ op) 1) in
  let dst :=
    PartitionTxId.mk (dstPartitionId_ op) (u64_add (dstTxId_ op) 1) in
  let txIds :=
    if decide (dstPartitionId_ op <> srcPartitionId_ op)
    then [src; dst] else [src] in
  let r := h _ (MdsClient_CommitTx txIds) w in
  let o := run h (CommitTx op) w in
  trace o = [Ev (MdsClient_CommitTx txIds) (fst r)] /\
  commit_calls (trace o) = [txIds] /\
  (dstPartitionId_ op <> srcPartitionId_ op <-> length txIds = 2%nat) /\
  value o =
    (if decide (fst r = TopoStatusCode.TOPO_OK)
     then CURVEFS_ERROR.OK else CURVEFS_ERROR.INTERNAL) /\
  (is_u64 (srcTxId_ op) -> srcTxId_ op <> UINT64_MODULUS - 1 ->
     src = PartitionTxId.mk (srcPartitionId_ op) (srcTxId_ op + 1)) /\
  (is_u64 (dstTxId_ op) -> dstTxId_ op <> UINT64_MODULUS - 1 ->
     dst = PartitionTxId.mk (dstPartitionId_ op) (dstTxId_ op + 1)).
Proof.
  cbv zeta.
  assert (Hb : commit_txIds op =
    if decide (dstPartitionId_ op <> srcPartitionId_ op)
    then [PartitionTxId.mk (srcPartitionId_ op) (u64_add (srcTxId_ op) 1);
          PartitionTxId.mk (dstPartitionId_ op) (u64_add (dstTxId_ op) 1)]
    else [PartitionTxId.mk (srcPartitionId_ op) (u64_add (srcTxId_ op) 1)]).
  { unfold commit_txIds. repeat case_decide; try done; congruence. }
  unfold CommitTx. rewrite Hb. clear Hb.
  set (txIds := if decide _ then _ else _).
  cbn. split_and!.
  - by repeat case_decide.
  - by repeat case_decide.
  - subst txIds. case_decide; cbn; split; done.
  - by repeat case_decide.
  - intros. f_equal. by apply u64_add_no_wrap.
  - intros. f_equal. by apply u64_add_no_wrap.
Qed.

End CommitTx_facts.

(** ** Resolving the transaction ids *)

Section GetTxId_facts.
Context {E : Externals} {W : Type}.
Variables (h : Handler W) (w : W) (op : RenameOperator).

(** [GetTxId] whatever the translation of statuses is.  It looks up
    the source parent first.  When that lookup does not translate to
    [OK], its translated status is returned and the destination parent
    is not looked up; otherwise the destination parent is looked up and
    the translated status of that lookup is returned.  Hence [GetTxId]
    returns [OK] exactly when both lookups translate to [OK], and a
    failure carries the translated status of the lookup that failed. *)
Theorem GetTxId_outcome :
  let c1 := MetaClient_GetTxId (fsId_ op) (parentId_ op)
              (srcPartitionId_ op) (srcTxId_ op) in
  let r1 := h _ c1 w in
  let rc1 := MetaStatusCodeToCurvefsErrCode (fst (fst (fst r1))) in
  let c2 := MetaClient_GetTxId (fsId_ op) (newParentId_ op)
              (dstPartitionId_ op) (dstTxId_ op) in
  let r2 := h _ c2 (snd r1) in
  let rc2 := MetaStatusCodeToCurvefsErrCode (fst (fst (fst r2))) in
  let o := run h (GetTxId op) w in
  (rc1 <> CURVEFS_ERROR.OK ->
     fst (value o) = rc1 /\ trace o = [Ev c1 (fst r1)]) /\
  (rc1 = CURVEFS_ERROR.OK ->
     fst (value o) = rc2 /\ trace o = [Ev c1 (fst r1); Ev c2 (fst r2)]) /\
  (fst (value o) = CURVEFS_ERROR.OK <->
     rc1 = CURVEFS_ERROR.OK /\ rc2 = CURVEFS_ERROR.OK).
Proof.
  cbv zeta. unfold GetTxId, GetTxId4. cbn.
  destruct (decide _) as [Hfail | Hok]; cbn.
  - split_and!; [done | done | ]. split; [done | by intros []].
  - apply dec_stable in Hok. split_and!; [done | done |].
    split; [done | by intros []].
Qed.

(** Whatever the translation, [GetTxId] can return the translation of
    any status that is not translated to [OK]: it adds no error code of
    its own. *)
Lemma GetTxId_returns_translated_status (rc : MetaStatusCode.t) :
  MetaStatusCodeToCurvefsErrCode rc <> CURVEFS_ERROR.OK ->
  fst (value (run (scripted (sample_script_txid_status rc)) (GetTxId op)
                0%nat)) =
  MetaStatusCodeToCurvefsErrCode rc.
Proof.
  intros Hfail. unfold GetTxId, GetTxId4. cbn.
  by destruct (decide _).
Qed.

End GetTxId_facts.

Section GetTxId_spec_translation.
Context {E : Externals} {W : Type}.
Variables (h : Handler W) (w : W) (op : RenameOperator).


End GetTxId_spec_translation.

(** ** Unlinking the overwritten inode *)

Section UnlinkOldInode_facts.
Context {E : Externals} {W : Type}.
Variables (h : Handler W) (w : W) (op : RenameOperator).

(** C8.  [UnlinkOldInode] does nothing when [oldInodeId_] is 0.
    Otherwise it looks the inode up; when the lookup succeeds it invokes
    unlink on the wrapper it obtained, and when the lookup fails it
    stops there.  It hands nothing back to its caller: neither the
    status of the lookup nor that of the unlink reaches it. *)
Theorem UnlinkOldInode_outcome :
  let c := InodeManager_GetInode (oldInodeId_ op) in
  let r := h _ c w in
  let u := InodeWrapper_UnLinkLocked (snd (fst r)) in
  let o := run h (UnlinkOldInode op) w in
  value o = tt /\
  (oldInodeId_ op = 0 -> trace o = [] /\ world o = w) /\
  (oldInodeId_ op <> 0 ->
     (fst (fst r) <> CURVEFS_ERROR.OK -> trace o = [Ev c (fst r)]) /\
     (fst (fst r) = CURVEFS_ERROR.OK ->
        trace o = [Ev c (fst r); Ev u (fst (h _ u (snd r)))])).
Proof.
  cbv zeta. unfold UnlinkOldInode.
  split; [by destruct (value _) |].
  destruct (decide (oldInodeId_ op = 0)) as [Hz | Hnz]; [done |].
  split; [done | intros _]. cbn.
  destruct (decide _) as [Hfail | Hok]; cbn; [done |].
  by apply dec_stable in Hok.
Qed.

End UnlinkOldInode_facts.

(** ** The precheck *)

Section Precheck_facts.
Context {E : Externals} {W : Type}.
Variables (h : Handler W).

(** [GetTxId] only talks to the metaserver client's id lookup, and it
    only assigns the partition ids and counters. *)
Lemma GetTxId_frame (w : W) (op : RenameOperator) :
  let o := run h (GetTxId op) w in
  let op' := snd (value o) in
  forallb is_txid_lookup (trace o) = true /\
  prepare_submissions (trace o) = [] /\
  commit_calls (trace o) = [] /\
  dentry_lookups (trace o) = [] /\
  (parentId_ op' = parentId_ op /\ name_ op' = name_ op /\
   newParentId_ op' = newParentId_ op /\ newname_ op' = newname_ op /\
   oldInodeId_ op' = oldInodeId_ op /\ srcDentry_ op' = srcDentry_ op /\
   dstDentry_ op' = dstDentry_ op) /\
  (fst (value o) = CURVEFS_ERROR.OK -> length (trace o) = 2%nat).
Proof.
  cbv zeta. unfold GetTxId, GetTxId4. cbn.
  destruct (decide _) as [Hfail | Hok]; cbn; [done |].
  by apply dec_stable in Hok.
Qed.

(** [Precheck] issues neither a prepare submission nor a commit call. *)
Lemma Precheck_no_submissions (w : W) (op : RenameOperator) :
  let o := run h (Precheck op) w in
  prepare_submissions (trace o) = [] /\ commit_calls (trace o) = [].
Proof.
  cbv zeta. unfold Precheck, CheckOverwrite. cbn.
  repeat (case_decide; cbn); done.
Qed.

(** A failing precheck ends the call: its status is the call's, and
    nothing is issued after it. *)
Lemma Rename_aborts_in_Precheck
  (fsId parentId : Z) (name : string) (newParentId : Z) (newname : string)
  (w0 : W) :
  let op0 := RenameOperator_new fsId parentId name newParentId newname in
  let o1 := run h (GetTxId op0) w0 in
  let o2 := run h (Precheck (snd (value o1))) (world o1) in
  fst (value o1) = CURVEFS_ERROR.OK ->
  fst (value o2) <> CURVEFS_ERROR.OK ->
  run h (Rename fsId parentId name newParentId newname) w0 =
  mkOutcome (value o2) (world o2) (trace o1 ++ trace o2).
Proof.
  cbv zeta. intros Hok Hfail. unfold Rename.
  rewrite run_bind. cbv zeta.
  destruct (decide _) as [Hno | _]; [done |].
  rewrite run_bind. cbv zeta.
  destruct (decide _) as [_ | Hno]; [| done].
  cbn. by rewrite app_nil_r.
Qed.

Lemma Rename_aborted_trace
  (fsId parentId : Z) (name : string) (newParentId : Z) (newname : string)
  (w0 : W) :
  let op0 := RenameOperator_new fsId parentId name newParentId newname in
  let o1 := run h (GetTxId op0) w0 in
  let o2 := run h (Precheck (snd (value o1))) (world o1) in
  prepare_submissions (trace o1 ++ trace o2) = [] /\
  commit_calls (trace o1 ++ trace o2) = [].
Proof.
  cbv zeta. unfold prepare_submissions, commit_calls.
  rewrite !omap_app.
  destruct (GetTxId_frame w0
              (RenameOperator_new fsId parentId name newParentId newname))
    as (_ & Hp & Hc & _).
  destruct (Precheck_no_submissions
              (world (run h (GetTxId (RenameOperator_new fsId parentId name
                                        newParentId newname)) w0))
              (snd (value (run h (GetTxId (RenameOperator_new fsId parentId
                                        name newParentId newname)) w0))))
    as (Hp' & Hc').
  unfold prepare_submissions, commit_calls in *.
  by rewrite Hp, Hc, Hp', Hc'.
Qed.

End Precheck_facts.

Section CheckOverwrite_facts.
Context {E : Externals} {W : Type}.
Variables (h : Handler W) (w : W) (op : RenameOperator).

Lemma CheckOverwrite_run :
  let c := DentryManager_ListDentry (Dentry.inodeid (dstDentry_ op)) 1 in
  let r := h _ c w in
  run h (CheckOverwrite op) w =
  if decide (Z.land (Dentry.flag (dstDentry_ op)) TYPE_FILE_FLAG <> 0) then
    mkOutcome CURVEFS_ERROR.OK w []
  else
    mkOutcome
      (if decide (fst (fst r) = CURVEFS_ERROR.OK /\ snd (fst r) <> [])
       then CURVEFS_ERROR.NOTEMPTY else fst (fst r))
      (snd r) [Ev c (fst r)].
Proof.
  cbv zeta. unfold CheckOverwrite.
  destruct (decide _); [done |]. cbn.
  by destruct (decide _).
Qed.

(** [Precheck] once both lookups have succeeded: the destination's
    inode id is recorded and the verdict is that of [CheckOverwrite]. *)
Lemma Precheck_destination_exists :
  let c1 := DentryManager_GetDentry (parentId_ op) (name_ op)
              (srcDentry_ op) in
  let r1 := h _ c1 w in
  let c2 := DentryManager_GetDentry (newParentId_ op) (newname_ op)
              (dstDentry_ op) in
  let r2 := h _ c2 (snd r1) in
  let op3 :=
    set_oldInodeId (Dentry.inodeid (snd (fst r2)))
      (set_dstDentry (snd (fst r2)) (set_srcDentry (snd (fst r1)) op)) in
  let oc := run h (CheckOverwrite op3) (snd r2) in
  fst (fst r1) = CURVEFS_ERROR.OK ->
  fst (fst r2) = CURVEFS_ERROR.OK ->
  run h (Precheck op) w =
  mkOutcome (value oc, op3) (world oc)
    (Ev c1 (fst r1) :: Ev c2 (fst r2) :: trace oc).
Proof.
  cbv zeta. intros H1 H2. unfold Precheck.
  cbn [run bind call fst snd value world trace].
  rewrite H1. destruct (decide _) as [Hno | _]; [done |].
  cbn [run bind call fst snd value world trace
       newParentId_ newname_ dstDentry_ set_srcDentry].
  rewrite H2. destruct (decide _) as [Hno | _]; [done |].
  destruct (decide _) as [_ | Hno]; [| done].
  rewrite run_bind. cbv zeta. cbn [run value world trace dstDentry_
    set_dstDentry]. by rewrite app_nil_r.
Qed.

End CheckOverwrite_facts.

Section Precheck_outcomes.
Context {E : Externals} {W : Type}.
Variables (h : Handler W) (w : W) (op : RenameOperator).

(** C4.  When the lookup of the source dentry by ([parentId_],
    [name_]) answers [NOTEXIST], [Precheck] returns [NOTEXIST] after
    that single lookup: the destination is not looked up and
    [oldInodeId_] keeps its value.  In a rename call that reaches the
    precheck in this state, the call returns [NOTEXIST], [oldInodeId_]
    is still 0, and the calls issued are the two transaction-id lookups
    followed by that one dentry lookup: no prepare submission and no
    commit call. *)
Theorem Precheck_source_absent :
  let c := DentryManager_GetDentry (parentId_ op) (name_ op)
             (srcDentry_ op) in
  let r := h _ c w in
  let o := run h (Precheck op) w in
  fst (fst r) = CURVEFS_ERROR.NOTEXIST ->
  fst (value o) = CURVEFS_ERROR.NOTEXIST /\
  trace o = [Ev c (fst r)] /\
  dentry_lookups (trace o) =
    [(parentId_ op, name_ op, CURVEFS_ERROR.NOTEXIST)] /\
  oldInodeId_ (snd (value o)) = oldInodeId_ op /\
  prepare_submissions (trace o) = [] /\
  commit_calls (trace o) = [] /\
  forall (fsId parentId : Z) (name : string) (newParentId : Z)
         (newname : string) (w0 : W),
    let op0 := RenameOperator_new fsId parentId name newParentId newname in
    let o1 := run h (GetTxId op0) w0 in
    let oR := run h (Rename fsId parentId name newParentId newname) w0 in
    fst (value o1) = CURVEFS_ERROR.OK ->
    snd (value o1) = op -> world o1 = w ->
    fst (value oR) = CURVEFS_ERROR.NOTEXIST /\
    oldInodeId_ (snd (value oR)) = 0 /\
    trace oR = trace o1 ++ [Ev c (fst r)] /\
    length (trace oR) = 3%nat /\
    forallb is_txid_lookup (trace o1) = true /\
    prepare_submissions (trace oR) = [] /\
    commit_calls (trace oR) = [].
Proof.
  cbv zeta. intros Habsent.
  assert (Hrun : run h (Precheck op) w =
    mkOutcome (CURVEFS_ERROR.NOTEXIST, set_srcDentry (snd (fst (h _
      (DentryManager_GetDentry (parentId_ op) (name_ op) (srcDentry_ op))
      w))) op)
      (snd (h _ (DentryManager_GetDentry (parentId_ op) (name_ op)
                   (srcDentry_ op)) w))
      [Ev (DentryManager_GetDentry (parentId_ op) (name_ op) (srcDentry_ op))
          (fst (h _ (DentryManager_GetDentry (parentId_ op) (name_ op)
                       (srcDentry_ op)) w))]).
  { unfold Precheck. cbn. rewrite Habsent.
    destruct (decide _) as [_ | Hno]; [done | by destruct Hno]. }
  split_and!; try (rewrite Hrun; cbn; rewrite ?Habsent; done).
  intros fsId parentId name newParentId newname w0 Hok Hop Hw.
  destruct (GetTxId_frame h w0
              (RenameOperator_new fsId parentId name newParentId newname))
    as (Hlook & _ & _ & _ & Hfr & Hlen).
  cbv zeta in Hlook, Hfr, Hlen.
  pose proof (Rename_aborted_trace h fsId parentId name newParentId newname
                w0) as Htr.
  cbv zeta in Htr.
  destruct Hfr as (_ & _ & _ & _ & Hold & _).
  rewrite Hop in Hold, Htr. rewrite Hw, Hrun in Htr.
  cbn in Hold. cbn [trace] in Htr.
  rewrite (Rename_aborts_in_Precheck h) by (try done; by rewrite Hop, Hw, Hrun).
  rewrite Hop, Hw, Hrun. cbn [value world trace fst snd].
  split_and!; try done; try tauto.
  rewrite length_app, Hlen by done. done.
Qed.

(** C5.  When both dentry lookups succeed, [Precheck] records the
    destination's inode id in [oldInodeId_].  If the destination's
    flags share a bit with [TYPE_FILE_FLAG] it returns [OK] and lists
    nothing.  Otherwise it lists the children of the destination's
    inode with limit 1; a listing that succeeds with at least one entry
    gives [NOTEMPTY], one that succeeds with none gives [OK].
    [Precheck] issues no prepare submission and no commit call, and a
    rename call whose precheck, reached in this state, gives [NOTEMPTY]
    returns [NOTEMPTY] without issuing any either. *)
Theorem Precheck_overwrite :
  let c1 := DentryManager_GetDentry (parentId_ op) (name_ op)
              (srcDentry_ op) in
  let r1 := h _ c1 w in
  let c2 := DentryManager_GetDentry (newParentId_ op) (newname_ op)
              (dstDentry_ op) in
  let r2 := h _ c2 (snd r1) in
  let dst := snd (fst r2) in
  let c3 := DentryManager_ListDentry (Dentry.inodeid dst) 1 in
  let r3 := h _ c3 (snd r2) in
  let o := run h (Precheck op) w in
  fst (fst r1) = CURVEFS_ERROR.OK ->
  fst (fst r2) = CURVEFS_ERROR.OK ->
  oldInodeId_ (snd (value o)) = Dentry.inodeid dst /\
  (Z.land (Dentry.flag dst) TYPE_FILE_FLAG <> 0 ->
     fst (value o) = CURVEFS_ERROR.OK /\
     trace o = [Ev c1 (fst r1); Ev c2 (fst r2)] /\
     dentry_listings (trace o) = []) /\
  (Z.land (Dentry.flag dst) TYPE_FILE_FLAG = 0 ->
     trace o = [Ev c1 (fst r1); Ev c2 (fst r2); Ev c3 (fst r3)] /\
     dentry_listings (trace o) =
       [(Dentry.inodeid dst, 1, fst (fst r3), snd (fst r3))] /\
     (fst (fst r3) = CURVEFS_ERROR.OK -> snd (fst r3) <> [] ->
        fst (value o) = CURVEFS_ERROR.NOTEMPTY) /\
     (fst (fst r3) = CURVEFS_ERROR.OK -> snd (fst r3) = [] ->
        fst (value o) = CURVEFS_ERROR.OK)) /\
  prepare_submissions (trace o) = [] /\
  commit_calls (trace o) = [] /\
  forall (fsId parentId : Z) (name : string) (newParentId : Z)
         (newname : string) (w0 : W),
    let op0 := RenameOperator_new fsId parentId name newParentId newname in
    let o1 := run h (GetTxId op0) w0 in
    let oR := run h (Rename fsId parentId name newParentId newname) w0 in
    fst (value o1) = CURVEFS_ERROR.OK ->
    snd (value o1) = op -> world o1 = w ->
    fst (value o) = CURVEFS_ERROR.NOTEMPTY ->
    fst (value oR) = CURVEFS_ERROR.NOTEMPTY /\
    oldInodeId_ (snd (value oR)) = Dentry.inodeid dst /\
    trace oR = trace o1 ++ trace o /\
    prepare_submissions (trace oR) = [] /\
    commit_calls (trace oR) = [].
Proof.
  cbv zeta. intros H1 H2.
  pose proof (Precheck_no_submissions h w op) as [Hp Hc].
  cbv zeta in Hp, Hc.
  pose proof (Precheck_destination_exists h w op H1 H2) as Hrun.
  cbv zeta in Hrun. rewrite CheckOverwrite_run in Hrun. cbv zeta in Hrun.
  cbn [dstDentry_ set_oldInodeId set_dstDentry] in Hrun.
  split_and!; try done.
  - rewrite Hrun. done.
  - intros Hfile. rewrite Hrun.
    destruct (decide _) as [_ | Hno]; [done | by destruct Hno].
  - intros Hdir. rewrite Hrun.
    destruct (decide _) as [Hno | _]; [done |].
    cbn. split_and!; try done.
    + intros Hok Hne. destruct (decide _) as [_ | Hno]; [done |].
      by destruct Hno.
    + intros Hok Hnil. destruct (decide _) as [[_ Hno] | _]; done.
  - intros fsId parentId name newParentId newname w0 Hok Hop Hw Hne.
    pose proof (Rename_aborted_trace h fsId parentId name newParentId newname
                  w0) as Htr.
    cbv zeta in Htr. rewrite Hop, Hw in Htr.
    rewrite (Rename_aborts_in_Precheck h)
      by (try done; rewrite Hop, Hw, Hne; done).
    rewrite Hop, Hw. cbn [value world trace].
    split_and!; try done; try tauto.
    rewrite Hrun. done.
Qed.

(** C9.  When both dentry lookups succeed, the destination is not
    flagged as a file and the listing of its children answers a status
    other than [OK], then [CheckOverwrite] returns that status as it is,
    whatever the listing holds, and so does [Precheck]; a rename call
    that reaches the precheck in this state returns it too, with no
    prepare submission and no commit call. *)
Theorem CheckOverwrite_listing_fails :
  let c1 := DentryManager_GetDentry (parentId_ op) (name_ op)
              (srcDentry_ op) in
  let r1 := h _ c1 w in
  let c2 := DentryManager_GetDentry (newParentId_ op) (newname_ op)
              (dstDentry_ op) in
  let r2 := h _ c2 (snd r1) in
  let dst := snd (fst r2) in
  let c3 := DentryManager_ListDentry (Dentry.inodeid dst) 1 in
  let r3 := h _ c3 (snd r2) in
  let op3 :=
    set_oldInodeId (Dentry.inodeid dst)
      (set_dstDentry dst (set_srcDentry (snd (fst r1)) op)) in
  let oc := run h (CheckOverwrite op3) (snd r2) in
  let o := run h (Precheck op) w in
  fst (fst r1) = CURVEFS_ERROR.OK ->
  fst (fst r2) = CURVEFS_ERROR.OK ->
  Z.land (Dentry.flag dst) TYPE_FILE_FLAG = 0 ->
  fst (fst r3) <> CURVEFS_ERROR.OK ->
  value oc = fst (fst r3) /\
  trace oc = [Ev c3 (fst r3)] /\
  fst (value o) = fst (fst r3) /\
  trace o = [Ev c1 (fst r1); Ev c2 (fst r2); Ev c3 (fst r3)] /\
  forall (fsId parentId : Z) (name : string) (newParentId : Z)
         (newname : string) (w0 : W),
    let op0 := RenameOperator_new fsId parentId name newParentId newname in
    let o1 := run h (GetTxId op0) w0 in
    let oR := run h (Rename fsId parentId name newParentId newname) w0 in
    fst (value o1) = CURVEFS_ERROR.OK ->
    snd (value o1) = op -> world o1 = w ->
    fst (value oR) = fst (fst r3) /\
    trace oR = trace o1 ++ trace o /\
    prepare_submissions (trace oR) = [] /\
    commit_calls (trace oR) = [].
Proof.
  cbv zeta. intros H1 H2 Hdir Hfail.
  pose proof (Precheck_destination_exists h w op H1 H2) as Hrun.
  cbv zeta in Hrun.
  revert Hrun. rewrite CheckOverwrite_run. cbv zeta.
  cbn [dstDentry_ set_oldInodeId set_dstDentry].
  destruct (decide _) as [Hno | _]; [done |].
  destruct (decide _) as [[Hno _] | _]; [done |].
  intros Hrun. rewrite Hrun. cbn [value world trace fst snd].
  split_and!; try done.
  intros fsId parentId name newParentId newname w0 Hok Hop Hw.
  pose proof (Rename_aborted_trace h fsId parentId name newParentId newname
                w0) as Htr.
  cbv zeta in Htr. rewrite Hop, Hw, Hrun in Htr. cbn [trace] in Htr.
  rewrite (Rename_aborts_in_Precheck h)
    by (try done; rewrite Hop, Hw, Hrun; done).
  rewrite Hop, Hw, Hrun. cbn [value world trace fst snd].
  split_and!; try done; tauto.
Qed.

End Precheck_outcomes.

(** ** The in-memory inode storage *)

Section MemoryInodeStorage_facts.
Context {Inode Key : Type} `{Countable Key}.
Variables (InodeKey : Inode -> Key).
Variables (s : @MemoryInodeStorage.t Inode Key _ _) (inode : Inode).

Lemma Insert_absent :
  MemoryInodeStorage.inodeMap_ s !! InodeKey inode = None ->
  let r := MemoryInodeStorage.Insert InodeKey inode s in
  fst r = MetaStatusCode.OK /\
  fst (MemoryInodeStorage.Get (InodeKey inode) (snd r)) = MetaStatusCode.OK /\
  snd (MemoryInodeStorage.GetCopy (InodeKey inode) (snd r)) = Some inode.
Proof.
  intros Hnone. unfold MemoryInodeStorage.Insert. rewrite Hnone. cbn.
  unfold MemoryInodeStorage.Get, MemoryInodeStorage.GetCopy. cbn.
  by rewrite !lookup_insert_eq.
Qed.

Lemma Update_present (p : MemoryInodeStorage.ptr) :
  MemoryInodeStorage.inodeMap_ s !! InodeKey inode = Some p ->
  let r := MemoryInodeStorage.Update InodeKey inode s in
  fst r = MetaStatusCode.OK /\
  MemoryInodeStorage.inodeMap_ (snd r) = MemoryInodeStorage.inodeMap_ s /\
  MemoryInodeStorage.objects (snd r) !! p = Some inode.
Proof.
  intros Hsome. unfold MemoryInodeStorage.Update. rewrite Hsome. cbn.
  by rewrite lookup_insert_eq.
Qed.

(** C10.  [Insert] of an inode whose key is present returns
    [INODE_EXIST] and leaves the storage as it was; [Update] of an inode
    whose key is absent returns [NOT_FOUND] and leaves the storage as it
    was. *)
Theorem Insert_Update_guards :
  (is_Some (MemoryInodeStorage.inodeMap_ s !! InodeKey inode) ->
     MemoryInodeStorage.Insert InodeKey inode s =
       (MetaStatusCode.INODE_EXIST, s)) /\
  (MemoryInodeStorage.inodeMap_ s !! InodeKey inode = None ->
     MemoryInodeStorage.Update InodeKey inode s =
       (MetaStatusCode.NOT_FOUND, s)).
Proof.
  split.
  - intros [p Hp]. unfold MemoryInodeStorage.Insert. by rewrite Hp.
  - intros Hnone. unfold MemoryInodeStorage.Update. by rewrite Hnone.
Qed.

End MemoryInodeStorage_facts.

(** ** The statements at work on the samples *)

Lemma PrepareTx_submissions_witness :
  let h := scripted sample_script in
  prepare_submissions
    (trace (run h (PrepareTx (E:=sample_externals) sample_same_partition)
              0%nat)) =
    [[Dentry.mk 1 100 10 "foo" 6 7; Dentry.mk 1 100 10 "bar" 6 5]] /\
  prepare_submissions
    (trace (run h (PrepareTx (E:=sample_externals) sample_cross_partition)
              0%nat)) =
    [[Dentry.mk 1 100 10 "foo" 6 7]; [Dentry.mk 1 100 20 "new" 9 5]].
Proof.
  cbv zeta. split.
  - pose proof (PrepareTx_submissions (E:=sample_externals)
                  (scripted sample_script) 0%nat sample_same_partition)
      as [Hsame _].
    destruct (Hsame eq_refl) as [Hsub _]. exact Hsub.
  - pose proof (PrepareTx_submissions (E:=sample_externals)
                  (scripted sample_script) 0%nat sample_cross_partition)
      as [_ Hcross].
    assert (Hne : srcPartitionId_ sample_cross_partition <>
                  dstPartitionId_ sample_cross_partition)
      by (cbn; discriminate).
    destruct (Hcross Hne) as [r1 [(_ & Hsub & _) | (_ & Hsub & Htr)]].
    + exact Hsub.
    + vm_compute in Htr. discriminate Htr.
Defined.

Lemma PrepareTx_staged_entries_witness :
  let op' :=
    snd (value (run (scripted sample_script)
                  (PrepareTx (E:=sample_externals) sample_cross_partition)
                  0%nat)) in
  Dentry.txid (dentry_ op') = 5 + 1 /\ Dentry.txid (newDentry_ op') = 8 + 1.
Proof.
  cbv zeta.
  pose proof (PrepareTx_staged_entries (E:=sample_externals)
                (scripted sample_script) 0%nat sample_cross_partition)
    as (_ & _ & Hsrc & Hdst).
  split.
  - apply Hsrc; [unfold is_u64, UINT64_MODULUS; cbn; lia |].
    unfold UINT64_MODULUS. cbn. lia.
  - apply Hdst; [unfold is_u64, UINT64_MODULUS; cbn; lia |].
    unfold UINT64_MODULUS. cbn. lia.
Defined.

Lemma PrepareTx_second_submission_fails_witness :
  let o :=
    run (scripted sample_script_second_prepare_fails)
      (PrepareTx (E:=sample_externals) sample_cross_partition) 0%nat in
  fst (value o) = CURVEFS_ERROR.OTHER 7 /\ length (trace o) = 2%nat.
Proof.
  cbv zeta.
  pose proof (PrepareTx_second_submission_fails (E:=sample_externals)
                (scripted sample_script_second_prepare_fails) 0%nat
                sample_cross_partition) as Hw.
  cbv zeta in Hw.
  destruct Hw as (Hrc & _ & _ & _ & Hlen).
  - cbn. discriminate.
  - reflexivity.
  - cbn. discriminate.
  - split; [rewrite Hrc; reflexivity | exact Hlen].
Defined.

Lemma CommitTx_batch_witness :
  let o :=
    run (scripted sample_script)
      (CommitTx sample_cross_partition) 0%nat in
  commit_calls (trace o) =
    [[PartitionTxId.mk 1 (5 + 1); PartitionTxId.mk 2 (8 + 1)]] /\
  value o = CURVEFS_ERROR.OK.
Proof.
  cbv zeta.
  pose proof (CommitTx_batch (scripted sample_script) 0%nat
                sample_cross_partition) as Hw.
  cbv zeta in Hw.
  destruct Hw as (_ & Hcalls & _ & Hrc & Hsrc & Hdst).
  split.
  - rewrite Hcalls. cbn [decide_rel].
    rewrite Hsrc, Hdst;
      [reflexivity | | | |];
      unfold is_u64, UINT64_MODULUS; cbn; lia.
  - rewrite Hrc. reflexivity.
Defined.

Lemma GetTxId_outcome_witness :
  let h := scripted sample_script in
  fst (value (run h (GetTxId (E:=sample_externals) sample_unresolved) 0%nat))
    = CURVEFS_ERROR.NOTEXIST /\
  length (trace (run h (GetTxId (E:=sample_externals) sample_unresolved)
                   0%nat)) = 1%nat /\
  fst (value (run h (GetTxId (E:=sample_externals)
                       (RenameOperator_new 1 10 "foo" 20 "bar")) 0%nat))
    = CURVEFS_ERROR.OK.
Proof.
  cbv zeta.
  pose proof (GetTxId_outcome (E:=sample_externals) (scripted sample_script)
                0%nat sample_unresolved) as (Hfail & _ & _).
  pose proof (GetTxId_outcome (E:=sample_externals) (scripted sample_script)
                0%nat (RenameOperator_new 1 10 "foo" 20 "bar"))
    as (_ & Hok & _).
  cbv zeta in Hfail, Hok.
  destruct Hfail as [Hrc Htr]; [cbn; discriminate |].
  destruct Hok as [Hrc' _]; [reflexivity |].
  rewrite Hrc, Htr, Hrc'. repeat split.
Defined.


(** The code a failure carries is the translation's: with the sample
    translation, which keeps absence apart, a source parent that cannot
    be resolved surfaces as [NOTEXIST]. *)
Lemma GetTxId_failure_not_RPC_ERROR :
  let h := scripted sample_script in
  let lookup :=
    run h (GetTxId4 (E:=sample_externals) 1 99 0 0) 0%nat in
  let o := run h (GetTxId (E:=sample_externals) sample_unresolved) 0%nat in
  fst (fst (value lookup)) <> CURVEFS_ERROR.OK /\
  fst (value o) = CURVEFS_ERROR.NOTEXIST /\
  fst (value o) <> CURVEFS_ERROR.RPC_ERROR.
Proof.
  cbv zeta. vm_compute. repeat split; discriminate.
Qed.

Lemma UnlinkOldInode_outcome_witness :
  let op := set_oldInodeId 200 sample_cross_partition in
  length (trace (run (scripted sample_script) (UnlinkOldInode op) 0%nat))
    = 2%nat /\
  length (trace (run (scripted sample_script_inode_lookup_fails)
                   (UnlinkOldInode op) 0%nat)) = 1%nat /\
  trace (run (scripted sample_script)
           (UnlinkOldInode sample_cross_partition) 0%nat) = [].
Proof.
  cbv zeta.
  pose proof (UnlinkOldInode_outcome (scripted sample_script) 0%nat
                (set_oldInodeId 200 sample_cross_partition))
    as (_ & _ & Hok).
  pose proof (UnlinkOldInode_outcome
                (scripted sample_script_inode_lookup_fails) 0%nat
                (set_oldInodeId 200 sample_cross_partition))
    as (_ & _ & Hfail).
  pose proof (UnlinkOldInode_outcome (scripted sample_script) 0%nat
                sample_cross_partition) as (_ & Hzero & _).
  cbv zeta in Hok, Hfail, Hzero.
  destruct Hok as [_ Hok]; [cbn; discriminate |].
  destruct Hfail as [Hfail _]; [cbn; discriminate |].
  destruct Hzero as [Hzero _]; [reflexivity |].
  rewrite Hok by reflexivity.
  rewrite Hfail by (cbn; discriminate).
  rewrite Hzero. repeat split.
Defined.

Lemma Precheck_source_absent_witness :
  let oR :=
    run (scripted sample_script)
      (Rename (E:=sample_externals) 1 10 "nope" 20 "bar") 0%nat in
  fst (value oR) = CURVEFS_ERROR.NOTEXIST /\
  oldInodeId_ (snd (value oR)) = 0 /\
  length (trace oR) = 3%nat /\
  prepare_submissions (trace oR) = [] /\
  commit_calls (trace oR) = [].
Proof.
  cbv zeta.
  pose proof (Precheck_source_absent (E:=sample_externals)
                (scripted sample_script) 2%nat
                (set_dst 2 8 (set_src 1 5
                   (RenameOperator_new 1 10 "nope" 20 "bar")))) as Hw.
  cbv zeta in Hw.
  destruct (Hw eq_refl) as (_ & _ & _ & _ & _ & _ & HR).
  destruct (HR 1 10 "nope" 20 "bar" 0%nat eq_refl eq_refl eq_refl)
    as (Hrc & Hold & _ & Hlen & _ & Hp & Hc).
  repeat split; assumption.
Defined.

Lemma Precheck_overwrite_witness :
  let oR :=
    run (scripted sample_script)
      (Rename (E:=sample_externals) 1 10 "foo" 20 "baz") 0%nat in
  fst (value oR) = CURVEFS_ERROR.NOTEMPTY /\
  oldInodeId_ (snd (value oR)) = 300 /\
  prepare_submissions (trace oR) = [] /\
  commit_calls (trace oR) = [].
Proof.
  cbv zeta.
  pose proof (Precheck_overwrite (E:=sample_externals)
                (scripted sample_script) 2%nat
                (set_dst 2 8 (set_src 1 5
                   (RenameOperator_new 1 10 "foo" 20 "baz")))) as Hw.
  cbv zeta in Hw.
  destruct (Hw eq_refl eq_refl) as (_ & _ & _ & _ & _ & HR).
  destruct (HR 1 10 "foo" 20 "baz" 0%nat eq_refl eq_refl eq_refl eq_refl)
    as (Hrc & Hold & _ & Hp & Hc).
  repeat split; assumption.
Defined.

Lemma CheckOverwrite_listing_fails_witness :
  let oR :=
    run (scripted sample_script_listing_fails)
      (Rename (E:=sample_externals) 1 10 "foo" 20 "bar") 0%nat in
  fst (value oR) = CURVEFS_ERROR.INTERNAL /\
  prepare_submissions (trace oR) = [] /\
  commit_calls (trace oR) = [].
Proof.
  cbv zeta.
  pose proof (CheckOverwrite_listing_fails (E:=sample_externals)
                (scripted sample_script_listing_fails) 2%nat
                (set_dst 2 8 (set_src 1 5
                   (RenameOperator_new 1 10 "foo" 20 "bar")))) as Hw.
  cbv zeta in Hw.
  destruct Hw as (_ & _ & _ & _ & HR);
    [reflexivity | reflexivity | reflexivity | cbn; discriminate |].
  destruct (HR 1 10 "foo" 20 "bar" 0%nat eq_refl eq_refl eq_refl)
    as (Hrc & _ & Hp & Hc).
  repeat split; assumption.
Defined.

Lemma Insert_Update_guards_witness :
  MemoryInodeStorage.Insert fst (5, 9) sample_storage =
    (MetaStatusCode.INODE_EXIST, sample_storage) /\
  MemoryInodeStorage.Update fst (6, 1) sample_storage =
    (MetaStatusCode.NOT_FOUND, sample_storage).
Proof.
  split.
  - apply (Insert_Update_guards fst sample_storage (5, 9)).
    eexists. vm_compute. reflexivity.
  - apply (Insert_Update_guards fst sample_storage (6, 1)).
    vm_compute. reflexivity.
Defined.

(** ** Two complete renames *)

(** [/a/foo] to [/a/bar] inside partition 1 (counter 5): one prepare
    batch of two entries under id 6, the commit of [(1, 6)], nothing to
    unlink. *)
Example Rename_within_a_partition :
  let o :=
    run (scripted sample_script)
      (Rename (E:=sample_externals) 1 10 "foo" 10 "bar") 0%nat in
  fst (value o) = CURVEFS_ERROR.OK /\
  prepare_submissions (trace o) =
    [[Dentry.mk 1 100 10 "foo" 6 7; Dentry.mk 1 100 10 "bar" 6 5]] /\
  commit_calls (trace o) = [[PartitionTxId.mk 1 6]] /\
  oldInodeId_ (snd (value o)) = 0.
Proof. vm_compute. repeat split. Qed.

(** [/a/foo] (partition 1, counter 5) over the empty directory [/b/bar]
    (partition 2, counter 8): two prepare submissions, the commit of
    [(1, 6); (2, 9)], and the unlink of inode 200. *)
Example Rename_across_partitions :
  let o :=
    run (scripted sample_script)
      (Rename (E:=sample_externals) 1 10 "foo" 20 "bar") 0%nat in
  fst (value o) = CURVEFS_ERROR.OK /\
  prepare_submissions (trace o) =
    [[Dentry.mk 1 100 10 "foo" 6 7]; [Dentry.mk 1 100 20 "bar" 9 5]] /\
  commit_calls (trace o) = [[PartitionTxId.mk 1 6; PartitionTxId.mk 2 9]] /\
  oldInodeId_ (snd (value o)) = 200 /\
  In (Ev (InodeWrapper_UnLinkLocked 1%positive) CURVEFS_ERROR.OK) (trace o).
Proof. vm_compute. repeat split. tauto. Qed.

(** * Further properties *)

(** ** Conversion to [int] *)

Lemma to_int_small (a : Z) : 0 <= a < 2 ^ 31 -> to_int a = a.
Proof.
  unfold to_int. change (2 ^ 31) with 2147483648.
  change (2 ^ 32) with 4294967296. intros Ha.
  rewrite Z.mod_small by lia. lia.
Qed.

Lemma to_int_is_int (a : Z) : is_int (to_int a).
Proof.
  unfold is_int, to_int. change (2 ^ 31) with 2147483648.
  change (2 ^ 32) with 4294967296.
  pose proof (Z.mod_pos_bound (a + 2147483648) 4294967296). lia.
Qed.

Lemma to_int_le (a : Z) : 0 <= a -> to_int a <= a.
Proof.
  unfold to_int. change (2 ^ 31) with 2147483648.
  change (2 ^ 32) with 4294967296. intros Ha.
  pose proof (Z.mod_le (a + 2147483648) 4294967296). lia.
Qed.

(** ** The in-memory inode storage: invariant, round trips, frames *)

Section MemoryInodeStorage_more.
Context {Inode Key : Type} `{Countable Key}.
Variables (InodeKey : Inode -> Key) (inodeid : Inode -> Z).

Lemma wf_empty : MemoryInodeStorage.wf (MemoryInodeStorage.empty : (@MemoryInodeStorage.t Inode Key _ _)).
Proof. split; intros *; cbn; by rewrite lookup_empty. Qed.

Lemma fresh_not_stored (s : (@MemoryInodeStorage.t Inode Key _ _)) (k : Key) :
  MemoryInodeStorage.wf s -> MemoryInodeStorage.inodeMap_ s !! k <> Some (fresh (dom (MemoryInodeStorage.objects s))).
Proof.
  intros [Hlive _] Hk. apply Hlive in Hk.
  apply elem_of_dom in Hk. by apply is_fresh in Hk.
Qed.

Lemma wf_Insert (s : (@MemoryInodeStorage.t Inode Key _ _)) (inode : Inode) :
  MemoryInodeStorage.wf s -> MemoryInodeStorage.wf (snd (MemoryInodeStorage.Insert InodeKey inode s)).
Proof.
  intros Hwf. pose proof Hwf as [Hlive Hinj].
  unfold MemoryInodeStorage.Insert.
  destruct (MemoryInodeStorage.inodeMap_ s !! InodeKey inode) eqn:Hk; [done |].
  split; cbn.
  - intros k q. rewrite lookup_insert. case_decide as Hkk.
    + intros [= <-]. rewrite lookup_insert_eq. eauto.
    + intros Hq. rewrite lookup_insert. case_decide; eauto.
  - intros k1 k2 q. rewrite !lookup_insert.
    repeat case_decide; try congruence.
    + intros [= <-] Hq. by apply fresh_not_stored in Hq.
    + intros Hq [= <-]. by apply fresh_not_stored in Hq.
    + apply Hinj.
Qed.

Lemma wf_Update (s : (@MemoryInodeStorage.t Inode Key _ _)) (inode : Inode) :
  MemoryInodeStorage.wf s -> MemoryInodeStorage.wf (snd (MemoryInodeStorage.Update InodeKey inode s)).
Proof.
  intros [Hlive Hinj]. unfold MemoryInodeStorage.Update.
  destruct (MemoryInodeStorage.inodeMap_ s !! InodeKey inode) as [p0 |] eqn:Hk; [| done].
  split; cbn; [| done].
  intros k q Hq. rewrite lookup_insert. case_decide; eauto.
Qed.

Lemma wf_Delete (s : (@MemoryInodeStorage.t Inode Key _ _)) (key : Key) :
  MemoryInodeStorage.wf s -> MemoryInodeStorage.wf (snd (MemoryInodeStorage.Delete key s)).
Proof.
  intros [Hlive Hinj]. unfold MemoryInodeStorage.Delete.
  destruct (MemoryInodeStorage.inodeMap_ s !! key) as [p0 |] eqn:Hk; [| done].
  split; cbn.
  - intros k q. rewrite lookup_delete. case_decide; [done | eauto].
  - intros k1 k2 q. rewrite !lookup_delete.
    repeat case_decide; try done. apply Hinj.
Qed.

Lemma wf_step (s : (@MemoryInodeStorage.t Inode Key _ _)) (o : MemoryInodeStorage.Op) :
  MemoryInodeStorage.wf s -> MemoryInodeStorage.wf (MemoryInodeStorage.step InodeKey s o).
Proof.
  destruct o; cbn; auto using wf_Insert, wf_Update, wf_Delete.
Qed.

Lemma wf_exec (ops : list MemoryInodeStorage.Op) (s : (@MemoryInodeStorage.t Inode Key _ _)) :
  MemoryInodeStorage.wf s -> MemoryInodeStorage.wf (MemoryInodeStorage.exec InodeKey ops s).
Proof.
  revert s. induction ops as [| o ops IH]; intros s Hwf; cbn; [done |].
  apply IH. by apply wf_step.
Qed.

(** X1.  Whatever sequence of [Insert], [Update] and [Delete] calls is
    applied to an empty storage, every stored pointer refers to a live
    object and no object is stored under two keys. *)
Theorem reachable_storage_wf (ops : list MemoryInodeStorage.Op) :
  MemoryInodeStorage.wf (MemoryInodeStorage.exec InodeKey ops MemoryInodeStorage.empty).
Proof. apply wf_exec, wf_empty. Qed.

(** X2.  The statuses agree on membership: [Insert] answers [OK]
    exactly for an absent key and [INODE_EXIST] exactly for a present
    one; [Get] answers [OK] exactly for a present key; [Update],
    [Delete] and [GetCopy] answer what [Get] answers for the same key. *)
Theorem statuses_agree (s : (@MemoryInodeStorage.t Inode Key _ _)) (inode : Inode) (key : Key) :
  (fst (MemoryInodeStorage.Insert InodeKey inode s) = MetaStatusCode.OK <->
     MemoryInodeStorage.inodeMap_ s !! InodeKey inode = None) /\
  (fst (MemoryInodeStorage.Insert InodeKey inode s) = MetaStatusCode.INODE_EXIST <->
     is_Some (MemoryInodeStorage.inodeMap_ s !! InodeKey inode)) /\
  (fst (MemoryInodeStorage.Get key s) = MetaStatusCode.OK <->
     is_Some (MemoryInodeStorage.inodeMap_ s !! key)) /\
  (fst (MemoryInodeStorage.Get key s) = MetaStatusCode.NOT_FOUND <->
     MemoryInodeStorage.inodeMap_ s !! key = None) /\
  fst (MemoryInodeStorage.Update InodeKey inode s) = fst (MemoryInodeStorage.Get (InodeKey inode) s) /\
  fst (MemoryInodeStorage.Delete key s) = fst (MemoryInodeStorage.Get key s) /\
  fst (MemoryInodeStorage.GetCopy key s) = fst (MemoryInodeStorage.Get key s).
Proof.
  unfold MemoryInodeStorage.Insert, MemoryInodeStorage.Update, MemoryInodeStorage.Delete, MemoryInodeStorage.Get, MemoryInodeStorage.GetCopy.
  destruct (MemoryInodeStorage.inodeMap_ s !! InodeKey inode) as [p |] eqn:Hi;
    destruct (MemoryInodeStorage.inodeMap_ s !! key) as [q |] eqn:Hk; cbn;
    repeat split; intros; try done; try by eexists.
  all: by match goal with Hs : is_Some None |- _ => destruct Hs end.
Qed.

(** X3.  In a well-formed storage, [Insert] of an inode with an absent
    key makes [GetCopy] of that key return the inode, adds one entry to
    the container, and changes neither what [Get] and [GetCopy] return
    for any other key nor what any live pointer refers to.  [Count()]
    rises by one as long as the container held fewer than 2^31 - 1
    entries; the insertion that brings it to 2^31 entries takes
    [Count()] from 2147483647 to -2147483648. *)
Theorem Insert_stores (s : (@MemoryInodeStorage.t Inode Key _ _)) (inode : Inode) :
  MemoryInodeStorage.wf s ->
  MemoryInodeStorage.inodeMap_ s !! InodeKey inode = None ->
  let s' := snd (MemoryInodeStorage.Insert InodeKey inode s) in
  let n := Z.of_nat (size (MemoryInodeStorage.inodeMap_ s)) in
  MemoryInodeStorage.GetCopy (InodeKey inode) s' = (MetaStatusCode.OK, Some inode) /\
  size (MemoryInodeStorage.inodeMap_ s') = S (size (MemoryInodeStorage.inodeMap_ s)) /\
  (n < 2 ^ 31 - 1 -> MemoryInodeStorage.Count s' = MemoryInodeStorage.Count s + 1) /\
  (n = 2 ^ 31 - 1 ->
     MemoryInodeStorage.Count s = 2147483647 /\ MemoryInodeStorage.Count s' = - 2147483648) /\
  (forall k, k <> InodeKey inode ->
     MemoryInodeStorage.Get k s' = MemoryInodeStorage.Get k s /\ MemoryInodeStorage.GetCopy k s' = MemoryInodeStorage.GetCopy k s) /\
  (forall q, is_Some (MemoryInodeStorage.objects s !! q) -> MemoryInodeStorage.objects s' !! q = MemoryInodeStorage.objects s !! q).
Proof.
  intros Hwf Hnone. cbv zeta. unfold MemoryInodeStorage.Insert. rewrite Hnone.
  cbn [snd]. unfold MemoryInodeStorage.GetCopy, MemoryInodeStorage.Get, MemoryInodeStorage.Count.
  cbn [MemoryInodeStorage.inodeMap_ MemoryInodeStorage.objects].
  rewrite (map_size_insert_None _ _ _ Hnone).
  split_and!.
  - by rewrite !lookup_insert_eq.
  - done.
  - change (2 ^ 31) with 2147483648. intros Hn.
    rewrite !to_int_small by (change (2 ^ 31) with 2147483648; lia). lia.
  - change (2 ^ 31) with 2147483648. intros Hn.
    rewrite Nat2Z.inj_succ, Hn. split; reflexivity.
  - intros k Hk. rewrite lookup_insert_ne by done.
    split; [done |].
    destruct (MemoryInodeStorage.inodeMap_ s !! k) as [q |] eqn:Hq; [| done].
    rewrite lookup_insert_ne; [done |].
    intros <-. by apply (fresh_not_stored s k).
  - intros q Hq. rewrite lookup_insert_ne; [done |].
    intros <-. apply elem_of_dom in Hq. by apply is_fresh in Hq.
Qed.

(** X4.  [Update] writes through the stored pointer: a pointer that
    [Get] handed out before the update is still the one [Get] returns
    after it, and it now refers to the new inode; [GetCopy] returns the
    new inode and [Count] is unchanged. *)
Theorem Update_through_pointer
  (s : (@MemoryInodeStorage.t Inode Key _ _)) (inode : Inode) (p : MemoryInodeStorage.ptr) :
  MemoryInodeStorage.Get (InodeKey inode) s = (MetaStatusCode.OK, Some p) ->
  let s' := snd (MemoryInodeStorage.Update InodeKey inode s) in
  fst (MemoryInodeStorage.Update InodeKey inode s) = MetaStatusCode.OK /\
  MemoryInodeStorage.Get (InodeKey inode) s' = (MetaStatusCode.OK, Some p) /\
  MemoryInodeStorage.objects s' !! p = Some inode /\
  MemoryInodeStorage.GetCopy (InodeKey inode) s' = (MetaStatusCode.OK, Some inode) /\
  MemoryInodeStorage.Count s' = MemoryInodeStorage.Count s.
Proof.
  unfold MemoryInodeStorage.Get, MemoryInodeStorage.Update, MemoryInodeStorage.GetCopy, MemoryInodeStorage.Count.
  destruct (MemoryInodeStorage.inodeMap_ s !! InodeKey inode) as [q |] eqn:Hq; [| done].
  intros [= ->]. cbn. rewrite Hq. by rewrite lookup_insert_eq.
Qed.

(** X5.  In a well-formed storage, [Update] of one inode changes
    neither the pointer nor the copy returned for any other key. *)
Theorem Update_frame (s : (@MemoryInodeStorage.t Inode Key _ _)) (inode : Inode) (k : Key) :
  MemoryInodeStorage.wf s ->
  k <> InodeKey inode ->
  MemoryInodeStorage.Get k (snd (MemoryInodeStorage.Update InodeKey inode s)) = MemoryInodeStorage.Get k s /\
  MemoryInodeStorage.GetCopy k (snd (MemoryInodeStorage.Update InodeKey inode s)) = MemoryInodeStorage.GetCopy k s.
Proof.
  intros [_ Hinj] Hk. unfold MemoryInodeStorage.Update, MemoryInodeStorage.Get, MemoryInodeStorage.GetCopy.
  destruct (MemoryInodeStorage.inodeMap_ s !! InodeKey inode) as [p |] eqn:Hp; [| done].
  cbn. split; [done |].
  destruct (MemoryInodeStorage.inodeMap_ s !! k) as [q |] eqn:Hq; [| done].
  rewrite lookup_insert_ne; [done |].
  intros <-. apply Hk. by apply (Hinj k (InodeKey inode) p).
Qed.

(** X6.  After [Delete(key)] the key is absent: [Get] answers
    [NOT_FOUND] and a second [Delete] answers [NOT_FOUND] and changes
    nothing.  What [Get] and [GetCopy] return for other keys is
    untouched.  When the key was present the container loses one entry,
    and [Count()] drops by one if the container held fewer than 2^31
    entries; from exactly 2^31 entries it goes from -2147483648 to
    2147483647.  When the key was absent the storage is unchanged. *)
Theorem Delete_outcome (s : (@MemoryInodeStorage.t Inode Key _ _)) (key : Key) :
  let s' := snd (MemoryInodeStorage.Delete key s) in
  let n := Z.of_nat (size (MemoryInodeStorage.inodeMap_ s)) in
  MemoryInodeStorage.Get key s' = (MetaStatusCode.NOT_FOUND, None) /\
  MemoryInodeStorage.Delete key s' = (MetaStatusCode.NOT_FOUND, s') /\
  (forall k, k <> key ->
     MemoryInodeStorage.Get k s' = MemoryInodeStorage.Get k s /\ MemoryInodeStorage.GetCopy k s' = MemoryInodeStorage.GetCopy k s) /\
  (is_Some (MemoryInodeStorage.inodeMap_ s !! key) ->
     S (size (MemoryInodeStorage.inodeMap_ s')) = size (MemoryInodeStorage.inodeMap_ s) /\
     (n < 2 ^ 31 -> MemoryInodeStorage.Count s' = MemoryInodeStorage.Count s - 1) /\
     (n = 2 ^ 31 ->
        MemoryInodeStorage.Count s = - 2147483648 /\ MemoryInodeStorage.Count s' = 2147483647)) /\
  (MemoryInodeStorage.inodeMap_ s !! key = None -> s' = s).
Proof.
  cbv zeta. unfold MemoryInodeStorage.Delete, MemoryInodeStorage.Get, MemoryInodeStorage.GetCopy, MemoryInodeStorage.Count.
  destruct (MemoryInodeStorage.inodeMap_ s !! key) as [p |] eqn:Hp;
    cbn [snd MemoryInodeStorage.inodeMap_ MemoryInodeStorage.objects].
  - rewrite lookup_delete_eq. split_and!; try done.
    + intros k Hk. by rewrite lookup_delete_ne.
    + intros _. rewrite map_size_delete, Hp.
      assert (Hsome : is_Some (MemoryInodeStorage.inodeMap_ s !! key)) by (rewrite Hp; eauto).
      apply map_size_ne_0_lookup_2 in Hsome.
      change (2 ^ 31) with 2147483648.
      destruct (size (MemoryInodeStorage.inodeMap_ s)) as [| m] eqn:Hsize; [done |].
      cbn [Init.Nat.pred]. rewrite Nat2Z.inj_succ.
      split_and!; [done | |].
      * intros Hn.
        rewrite !to_int_small by (change (2 ^ 31) with 2147483648; lia). lia.
      * intros Hn. rewrite Hn.
        replace (Z.of_nat m) with 2147483647 by lia. split; reflexivity.
  - rewrite Hp. split_and!; done.
Qed.

(** X7.  [Insert] followed by [Delete] of the same key restores the
    container when the key was absent, and [Delete] followed by [Insert]
    always succeeds and leaves the inserted inode under the key. *)
Theorem Insert_Delete_round_trip (s : (@MemoryInodeStorage.t Inode Key _ _)) (inode : Inode) :
  (MemoryInodeStorage.inodeMap_ s !! InodeKey inode = None ->
     MemoryInodeStorage.inodeMap_ (snd (MemoryInodeStorage.Delete (InodeKey inode) (snd (MemoryInodeStorage.Insert InodeKey inode s)))) =
     MemoryInodeStorage.inodeMap_ s) /\
  (let s' := snd (MemoryInodeStorage.Delete (InodeKey inode) s) in
   fst (MemoryInodeStorage.Insert InodeKey inode s') = MetaStatusCode.OK /\
   MemoryInodeStorage.GetCopy (InodeKey inode) (snd (MemoryInodeStorage.Insert InodeKey inode s')) =
     (MetaStatusCode.OK, Some inode)).
Proof.
  split.
  - intros Hnone. unfold MemoryInodeStorage.Insert, MemoryInodeStorage.Delete. rewrite Hnone. cbn.
    rewrite lookup_insert_eq. cbn.
    rewrite delete_insert_eq. by apply delete_id.
  - cbv zeta.
    assert (Hgone : MemoryInodeStorage.inodeMap_ (snd (MemoryInodeStorage.Delete (InodeKey inode) s))
                      !! InodeKey inode = None).
    { unfold MemoryInodeStorage.Delete.
      destruct (MemoryInodeStorage.inodeMap_ s !! InodeKey inode) eqn:Hp; cbn; [| done].
      apply lookup_delete_eq. }
    unfold MemoryInodeStorage.Insert, MemoryInodeStorage.GetCopy. rewrite Hgone. cbn.
    by rewrite !lookup_insert_eq.
Qed.

(** X8.  In a well-formed storage, whenever [Get] succeeds the pointer
    it returns refers to an inode, and [GetCopy] returns that inode. *)
Theorem GetCopy_agrees_with_Get
  (s : (@MemoryInodeStorage.t Inode Key _ _)) (key : Key) (p : MemoryInodeStorage.ptr) :
  MemoryInodeStorage.wf s ->
  MemoryInodeStorage.Get key s = (MetaStatusCode.OK, Some p) ->
  exists inode,
    MemoryInodeStorage.objects s !! p = Some inode /\
    MemoryInodeStorage.GetCopy key s = (MetaStatusCode.OK, Some inode).
Proof.
  intros [Hlive _]. unfold MemoryInodeStorage.Get, MemoryInodeStorage.GetCopy.
  destruct (MemoryInodeStorage.inodeMap_ s !! key) as [q |] eqn:Hq; [| done].
  intros [= ->]. destruct (Hlive key p Hq) as [inode Hinode].
  exists inode. by rewrite Hinode.
Qed.

Lemma length_omap_total {A B : Type} (f : A -> option B) (l : list A) :
  (forall x, x ∈ l -> is_Some (f x)) -> length (omap f l) = length l.
Proof.
  induction l as [| x l IH]; intros Hall; [done |]. cbn.
  destruct (Hall x) as [y Hy]; [by left |]. rewrite Hy. cbn.
  f_equal. apply IH. intros x' Hx'. apply Hall. by right.
Qed.

(** X9.  In a well-formed storage, [GetInodeIdList] keeps the list it
    is given and appends one id for each entry of the container: the
    ids of the inodes that [GetCopy] returns for the stored keys.  The
    number of ids appended is what [Count()] returns as long as the
    container holds fewer than 2^31 entries. *)
Theorem GetInodeIdList_appends (s : (@MemoryInodeStorage.t Inode Key _ _)) (inodeIdList : list Z) :
  MemoryInodeStorage.wf s ->
  exists ids,
    MemoryInodeStorage.GetInodeIdList inodeid inodeIdList s = inodeIdList ++ ids /\
    length ids = size (MemoryInodeStorage.inodeMap_ s) /\
    (Z.of_nat (size (MemoryInodeStorage.inodeMap_ s)) < 2 ^ 31 ->
       Z.of_nat (length ids) = MemoryInodeStorage.Count s) /\
    forall z,
      z ∈ ids <->
      exists key inode,
        MemoryInodeStorage.GetCopy key s = (MetaStatusCode.OK, Some inode) /\
        inodeid inode = z.
Proof.
  intros [Hlive _]. unfold MemoryInodeStorage.GetInodeIdList. eexists. split; [done |].
  assert (Hlen : length (omap (fun kp : Key * MemoryInodeStorage.ptr =>
                    inodeid <$> MemoryInodeStorage.objects s !! snd kp)
                    (map_to_list (MemoryInodeStorage.inodeMap_ s))) = size (MemoryInodeStorage.inodeMap_ s)).
  { rewrite <- length_map_to_list.
    apply length_omap_total. intros [k p] Hkp. cbn.
    apply elem_of_map_to_list in Hkp.
    destruct (Hlive k p Hkp) as [inode Hinode]. rewrite Hinode. by eexists. }
  split_and!.
  - exact Hlen.
  - intros Hn. rewrite Hlen. unfold MemoryInodeStorage.Count.
    rewrite to_int_small; [done | lia].
  - intros z. rewrite list_elem_of_omap. unfold MemoryInodeStorage.GetCopy. split.
    + intros ([k p] & Hkp & Hz). cbn in Hz.
      apply elem_of_map_to_list in Hkp.
      apply fmap_Some in Hz as (inode & Hinode & ->).
      exists k, inode. by rewrite Hkp, Hinode.
    + intros (k & inode & Hcopy & <-).
      destruct (MemoryInodeStorage.inodeMap_ s !! k) as [p |] eqn:Hp; [| done].
      exists (k, p). split; [by apply elem_of_map_to_list |].
      cbn. injection Hcopy as ->. done.
Qed.

Lemma size_step (s : (@MemoryInodeStorage.t Inode Key _ _)) (o : MemoryInodeStorage.Op) :
  (size (MemoryInodeStorage.inodeMap_ (MemoryInodeStorage.step InodeKey s o)) <= S (size (MemoryInodeStorage.inodeMap_ s)))%nat.
Proof.
  destruct o as [inode | inode | key]; cbn.
  - unfold MemoryInodeStorage.Insert.
    destruct (MemoryInodeStorage.inodeMap_ s !! InodeKey inode) eqn:Hk; cbn; [lia |].
    rewrite map_size_insert_None by done. lia.
  - unfold MemoryInodeStorage.Update.
    destruct (MemoryInodeStorage.inodeMap_ s !! InodeKey inode) eqn:Hk; cbn; lia.
  - unfold MemoryInodeStorage.Delete.
    destruct (MemoryInodeStorage.inodeMap_ s !! key) eqn:Hk; cbn; [| lia].
    rewrite map_size_delete, Hk. cbn. lia.
Qed.

(** X10.  [Count()] is always an [int] value and never exceeds the
    number of entries; [Update] never changes it.  While the container
    holds fewer than 2^31 entries [Count()] is the number of entries and
    [Delete] does not raise it; while it holds fewer than 2^31 - 1,
    [Insert] raises it by at most one and does not lower it.  A storage
    built from the empty one by [n] calls holds at most [n] entries, so
    its [Count()] is at most [n], and is not negative when [n] is below
    2^31. *)
Theorem Count_bounds (s : (@MemoryInodeStorage.t Inode Key _ _)) (inode : Inode) (key : Key)
  (ops : list MemoryInodeStorage.Op) :
  let n := Z.of_nat (size (MemoryInodeStorage.inodeMap_ s)) in
  let built := MemoryInodeStorage.exec InodeKey ops MemoryInodeStorage.empty in
  is_int (MemoryInodeStorage.Count s) /\
  MemoryInodeStorage.Count s <= n /\
  (n < 2 ^ 31 -> MemoryInodeStorage.Count s = n) /\
  MemoryInodeStorage.Count (snd (MemoryInodeStorage.Update InodeKey inode s)) = MemoryInodeStorage.Count s /\
  (n < 2 ^ 31 -> MemoryInodeStorage.Count (snd (MemoryInodeStorage.Delete key s)) <= MemoryInodeStorage.Count s) /\
  (n < 2 ^ 31 - 1 ->
     MemoryInodeStorage.Count s <= MemoryInodeStorage.Count (snd (MemoryInodeStorage.Insert InodeKey inode s)) <= MemoryInodeStorage.Count s + 1) /\
  (size (MemoryInodeStorage.inodeMap_ built) <= length ops)%nat /\
  MemoryInodeStorage.Count built <= Z.of_nat (length ops) /\
  (Z.of_nat (length ops) < 2 ^ 31 -> 0 <= MemoryInodeStorage.Count built).
Proof.
  cbv zeta.
  assert (Hbuilt : (size (MemoryInodeStorage.inodeMap_ (MemoryInodeStorage.exec InodeKey ops MemoryInodeStorage.empty)) <= length ops)%nat).
  { assert (Hgen : forall (l : list MemoryInodeStorage.Op) (s0 : (@MemoryInodeStorage.t Inode Key _ _)),
      (size (MemoryInodeStorage.inodeMap_ (MemoryInodeStorage.exec InodeKey l s0)) <= size (MemoryInodeStorage.inodeMap_ s0) + length l)%nat).
    { induction l as [| o l IH]; intros s0; cbn; [lia |].
      specialize (IH (MemoryInodeStorage.step InodeKey s0 o)).
      pose proof (size_step s0 o). unfold MemoryInodeStorage.exec in IH. lia. }
    specialize (Hgen ops MemoryInodeStorage.empty). cbn in Hgen.
    rewrite map_size_empty in Hgen. lia. }
  unfold MemoryInodeStorage.Count. change (2 ^ 31) with 2147483648.
  split_and!.
  - apply to_int_is_int.
  - apply to_int_le. lia.
  - intros Hn. apply to_int_small. change (2 ^ 31) with 2147483648. lia.
  - unfold MemoryInodeStorage.Update.
    by destruct (MemoryInodeStorage.inodeMap_ s !! InodeKey inode).
  - intros Hn. unfold MemoryInodeStorage.Delete.
    destruct (MemoryInodeStorage.inodeMap_ s !! key) eqn:Hk; cbn; [| lia].
    rewrite map_size_delete, Hk.
    rewrite !to_int_small by (change (2 ^ 31) with 2147483648; cbn; lia).
    cbn. lia.
  - intros Hn. unfold MemoryInodeStorage.Insert.
    destruct (MemoryInodeStorage.inodeMap_ s !! InodeKey inode) eqn:Hk; cbn; [lia |].
    rewrite map_size_insert_None by done.
    rewrite !to_int_small by (change (2 ^ 31) with 2147483648; lia). lia.
  - exact Hbuilt.
  - etransitivity; [apply to_int_le; lia | lia].
  - intros Hn. rewrite to_int_small; [lia |].
    change (2 ^ 31) with 2147483648. lia.
Qed.

End MemoryInodeStorage_more.

(** ** The coordinator: what each step assigns, issues and leaves alone *)

Section Coordinator_helpers.
Context {E : Externals} {W : Type}.
Variables (h : Handler W) (w : W) (op : RenameOperator).

Lemma PrepareTx_value :
  snd (value (run h (PrepareTx op) w)) = staged op.
Proof.
  destruct (decide (srcPartitionId_ op = dstPartitionId_ op)) as [Hp | Hp].
  - by rewrite PrepareTx_same_partition.
  - rewrite PrepareTx_cross_partition by done. cbv zeta.
    by destruct (decide _).
Qed.

Lemma CommitTx_calls :
  commit_calls (trace (run h (CommitTx op) w)) = [commit_txIds op].
Proof. unfold CommitTx. cbn. by destruct (decide _). Qed.

Lemma Precheck_keeps_ids :
  let r1 := h _ (DentryManager_GetDentry (parentId_ op) (name_ op)
                   (srcDentry_ op)) w in
  let op' := snd (value (run h (Precheck op) w)) in
  op' = set_oldInodeId (oldInodeId_ op')
          (set_dstDentry (dstDentry_ op')
             (set_srcDentry (snd (fst r1)) op)).
Proof.
  cbv zeta. unfold Precheck, CheckOverwrite. cbn.
  repeat (case_decide; cbn); done.
Qed.

End Coordinator_helpers.

Section Coordinator_more.
Context {E : Externals} {W : Type}.
Variables (h : Handler W) (w : W) (op : RenameOperator).

(** X11.  [GetTxId] stores in [srcPartitionId_] and [srcTxId_] what the
    first lookup left in its out-parameters, also when that lookup
    fails; [dstPartitionId_] and [dstTxId_] keep their values when the
    first lookup fails and otherwise hold what the second lookup left.
    No other member changes. *)
Theorem GetTxId_assigns :
  let c1 := MetaClient_GetTxId (fsId_ op) (parentId_ op)
              (srcPartitionId_ op) (srcTxId_ op) in
  let r1 := h _ c1 w in
  let rc1 := MetaStatusCodeToCurvefsErrCode (fst (fst (fst r1))) in
  let c2 := MetaClient_GetTxId (fsId_ op) (newParentId_ op)
              (dstPartitionId_ op) (dstTxId_ op) in
  let r2 := h _ c2 (snd r1) in
  let op' := snd (value (run h (GetTxId op) w)) in
  srcPartitionId_ op' = snd (fst (fst r1)) /\
  srcTxId_ op' = snd (fst r1) /\
  (rc1 <> CURVEFS_ERROR.OK ->
     dstPartitionId_ op' = dstPartitionId_ op /\
     dstTxId_ op' = dstTxId_ op) /\
  (rc1 = CURVEFS_ERROR.OK ->
     dstPartitionId_ op' = snd (fst (fst r2)) /\
     dstTxId_ op' = snd (fst r2)) /\
  op' = set_dst (dstPartitionId_ op') (dstTxId_ op')
          (set_src (srcPartitionId_ op') (srcTxId_ op') op).
Proof.
  cbv zeta. unfold GetTxId, GetTxId4. cbn.
  destruct (decide _) as [Hfail | Hok]; cbn.
  - split_and!; done.
  - apply dec_stable in Hok. split_and!; done.
Qed.

(** X12.  [Precheck] returns [OK] exactly when the source lookup
    succeeds and the destination either is reported absent, or is found
    and is a file, or is found and its children listing succeeds and is
    empty. *)
Theorem Precheck_succeeds_iff :
  let c1 := DentryManager_GetDentry (parentId_ op) (name_ op)
              (srcDentry_ op) in
  let r1 := h _ c1 w in
  let c2 := DentryManager_GetDentry (newParentId_ op) (newname_ op)
              (dstDentry_ op) in
  let r2 := h _ c2 (snd r1) in
  let dst := snd (fst r2) in
  let c3 := DentryManager_ListDentry (Dentry.inodeid dst) 1 in
  let r3 := h _ c3 (snd r2) in
  fst (value (run h (Precheck op) w)) = CURVEFS_ERROR.OK <->
  fst (fst r1) = CURVEFS_ERROR.OK /\
  (fst (fst r2) = CURVEFS_ERROR.NOTEXIST \/
   (fst (fst r2) = CURVEFS_ERROR.OK /\
    (Z.land (Dentry.flag dst) TYPE_FILE_FLAG <> 0 \/
     (fst (fst r3) = CURVEFS_ERROR.OK /\ snd (fst r3) = [])))).
Proof.
  cbv zeta. unfold Precheck, CheckOverwrite. cbn.
  destruct (decide (fst (fst (h _ _ w)) <> _)) as [Hf1 | Hok1]; cbn.
  { split; [done | by intros [? _]]. }
  apply dec_stable in Hok1.
  destruct (decide (_ = CURVEFS_ERROR.NOTEXIST)) as [Habs | Hpres]; cbn.
  { split; [by auto | done]. }
  destruct (decide (_ = CURVEFS_ERROR.OK)) as [Hok2 | Hf2]; cbn.
  2: { split; [done | intros [_ [? | [? _]]]; done]. }
  destruct (decide (Z.land _ _ <> 0)) as [Hfile | Hdir]; cbn.
  { split; [by auto | done]. }
  apply dec_stable in Hdir.
  destruct (decide (_ /\ _)) as [[Hok3 Hne] | Hno]; cbn.
  - split; [done |].
    intros [_ [Habs | [_ [Hfile | [_ Hnil]]]]]; congruence.
  - split.
    + intros Hok3. split; [done |]. right. split; [done |]. right.
      split; [done |].
      match goal with
      | |- ?l = [] =>
          destruct (decide (l = [])) as [Hnil | Hne];
          [done | by destruct Hno]
      end.
    + intros [_ [Habs | [_ [Hfile | [Hok3 _]]]]]; congruence.
Qed.

(** X13.  When the source is found and the destination is reported
    absent, [Precheck] returns [OK] after the two lookups, lists
    nothing and leaves [oldInodeId_] alone; on a coordinator whose
    [oldInodeId_] is 0, as the constructor leaves it, a later
    [UnlinkOldInode] then issues no call at all. *)
Theorem Precheck_destination_absent :
  let c1 := DentryManager_GetDentry (parentId_ op) (name_ op)
              (srcDentry_ op) in
  let r1 := h _ c1 w in
  let c2 := DentryManager_GetDentry (newParentId_ op) (newname_ op)
              (dstDentry_ op) in
  let r2 := h _ c2 (snd r1) in
  let o := run h (Precheck op) w in
  let op' := snd (value o) in
  fst (fst r1) = CURVEFS_ERROR.OK ->
  fst (fst r2) = CURVEFS_ERROR.NOTEXIST ->
  fst (value o) = CURVEFS_ERROR.OK /\
  trace o = [Ev c1 (fst r1); Ev c2 (fst r2)] /\
  dentry_listings (trace o) = [] /\
  oldInodeId_ op' = oldInodeId_ op /\
  (oldInodeId_ op = 0 ->
     forall (h' : Handler W) (w' : W),
       trace (run h' (UnlinkOldInode op') w') = []).
Proof.
  cbv zeta. intros H1 H2. unfold Precheck. cbn. rewrite H1.
  destruct (decide _) as [Hno | _]; [done |]. cbn. rewrite H2.
  destruct (decide _) as [_ | Hno]; [| done]. cbn.
  split_and!; try done.
  intros Hzero h' w'. unfold UnlinkOldInode. cbn. rewrite Hzero.
  by destruct (decide _).
Qed.

(** X14.  [Precheck] hands lookup errors through as they are: any
    status other than [OK] from the source lookup is returned after that
    one call, and any status other than [OK] and [NOTEXIST] from the
    destination lookup is returned after the two lookups; in both cases
    nothing is listed and [oldInodeId_] is not assigned. *)
Theorem Precheck_lookup_error :
  let c1 := DentryManager_GetDentry (parentId_ op) (name_ op)
              (srcDentry_ op) in
  let r1 := h _ c1 w in
  let c2 := DentryManager_GetDentry (newParentId_ op) (newname_ op)
              (dstDentry_ op) in
  let r2 := h _ c2 (snd r1) in
  let o := run h (Precheck op) w in
  (fst (fst r1) <> CURVEFS_ERROR.OK ->
     fst (value o) = fst (fst r1) /\
     trace o = [Ev c1 (fst r1)] /\
     oldInodeId_ (snd (value o)) = oldInodeId_ op /\
     dstDentry_ (snd (value o)) = dstDentry_ op) /\
  (fst (fst r1) = CURVEFS_ERROR.OK ->
   fst (fst r2) <> CURVEFS_ERROR.OK ->
   fst (fst r2) <> CURVEFS_ERROR.NOTEXIST ->
     fst (value o) = fst (fst r2) /\
     trace o = [Ev c1 (fst r1); Ev c2 (fst r2)] /\
     oldInodeId_ (snd (value o)) = oldInodeId_ op).
Proof.
  cbv zeta. unfold Precheck. cbn. split.
  - intros Hfail. destruct (decide _) as [_ | Hno]; [done | by destruct Hno].
  - intros H1 Hfail Hpres.
    destruct (decide _) as [Hno | _]; [done |]. cbn.
    destruct (decide _) as [Hno | _]; [done |].
    destruct (decide _) as [Hno | _]; [done |]. done.
Qed.

(** X15.  [Precheck] issues at most three calls, all of them reads
    through the dentry manager, and assigns only [srcDentry_],
    [dstDentry_] and [oldInodeId_]; [oldInodeId_] is assigned only when
    both lookups succeed, and then it is the loaded destination's inode
    id. *)
Theorem Precheck_frame :
  let c1 := DentryManager_GetDentry (parentId_ op) (name_ op)
              (srcDentry_ op) in
  let r1 := h _ c1 w in
  let c2 := DentryManager_GetDentry (newParentId_ op) (newname_ op)
              (dstDentry_ op) in
  let r2 := h _ c2 (snd r1) in
  let o := run h (Precheck op) w in
  let op' := snd (value o) in
  (length (trace o) <= 3)%nat /\
  forallb is_dentry_read (trace o) = true /\
  op' = set_oldInodeId (oldInodeId_ op')
          (set_dstDentry (dstDentry_ op')
             (set_srcDentry (srcDentry_ op') op)) /\
  srcDentry_ op' = snd (fst r1) /\
  (oldInodeId_ op' = oldInodeId_ op \/
   (fst (fst r1) = CURVEFS_ERROR.OK /\ fst (fst r2) = CURVEFS_ERROR.OK /\
    oldInodeId_ op' = Dentry.inodeid (dstDentry_ op'))).
Proof.
  cbv zeta. unfold Precheck, CheckOverwrite. cbn.
  destruct (decide (fst (fst (h _ _ w)) <> _)) as [Hf1 | Hok1]; cbn.
  { split_and!; try done; [lia | by left]. }
  apply dec_stable in Hok1.
  destruct (decide (_ = CURVEFS_ERROR.NOTEXIST)) as [Habs | Hpres]; cbn.
  { split_and!; try done; [lia | by left]. }
  destruct (decide (_ = CURVEFS_ERROR.OK)) as [Hok2 | Hf2]; cbn.
  2: { split_and!; try done; [lia | by left]. }
  destruct (decide (Z.land _ _ <> 0)) as [Hfile | Hdir]; cbn.
  { split_and!; try done; [lia | by right]. }
  destruct (decide (_ /\ _)); cbn; split_and!; try done; try lia; by right.
Qed.

(** X16.  After a [Precheck] in which both lookups succeeded,
    [UnlinkOldInode] looks up exactly the inode id of the destination
    that was loaded, unless that id is 0, in which case it looks up
    nothing: an overwritten entry whose inode id is 0 is never
    unlinked. *)
Theorem UnlinkOldInode_after_Precheck :
  let c1 := DentryManager_GetDentry (parentId_ op) (name_ op)
              (srcDentry_ op) in
  let r1 := h _ c1 w in
  let c2 := DentryManager_GetDentry (newParentId_ op) (newname_ op)
              (dstDentry_ op) in
  let r2 := h _ c2 (snd r1) in
  let dst := snd (fst r2) in
  let op' := snd (value (run h (Precheck op) w)) in
  fst (fst r1) = CURVEFS_ERROR.OK ->
  fst (fst r2) = CURVEFS_ERROR.OK ->
  forall (h' : Handler W) (w' : W),
    inode_lookups (trace (run h' (UnlinkOldInode op') w')) =
    if decide (Dentry.inodeid dst = 0) then [] else [Dentry.inodeid dst].
Proof.
  cbv zeta. intros H1 H2 h' w'.
  rewrite (Precheck_destination_exists h w op H1 H2).
  cbn [value snd]. unfold UnlinkOldInode. cbn [oldInodeId_ set_oldInodeId].
  destruct (decide _) as [Hz | Hnz]; [done |]. cbn.
  by destruct (decide _).
Qed.

(** X17.  [PrepareTx] issues one or two calls, all of them prepare
    submissions, and exactly one when the partition ids are equal.  It
    returns the translated status of the last submission, and it returns
    [OK] exactly when every submission it issued translates to [OK]. *)
Theorem PrepareTx_result :
  let o := run h (PrepareTx op) w in
  let statuses := prepare_statuses (trace o) in
  length statuses = length (trace o) /\
  (1 <= length statuses <= 2)%nat /\
  (srcPartitionId_ op = dstPartitionId_ op -> length statuses = 1%nat) /\
  (exists rc, last statuses = Some rc /\
              fst (value o) = MetaStatusCodeToCurvefsErrCode rc) /\
  (fst (value o) = CURVEFS_ERROR.OK <->
     Forall (fun rc => MetaStatusCodeToCurvefsErrCode rc = CURVEFS_ERROR.OK)
       statuses).
Proof.
  cbv zeta.
  destruct (decide (srcPartitionId_ op = dstPartitionId_ op)) as [Hp | Hp].
  - rewrite PrepareTx_same_partition by done. cbn.
    split_and!; try done; try lia; [by eexists |].
    rewrite Forall_singleton. done.
  - rewrite PrepareTx_cross_partition by done. cbv zeta.
    destruct (decide _) as [Hok | Hfail]; cbn.
    + split_and!; try done; try lia; [by eexists |].
      rewrite Forall_cons, Forall_singleton. tauto.
    + split_and!; try done; try lia; [by eexists |].
      rewrite Forall_singleton. done.
Qed.

(** X18.  [PrepareTx] assigns only [dentry_] and [newDentry_], and
    staging is repeatable: running [PrepareTx] again on the coordinator
    it left, against any collaborators, stages the same two entries and
    opens with the same submission. *)
Theorem PrepareTx_restaging :
  let o := run h (PrepareTx op) w in
  let op' := snd (value o) in
  op' = set_newDentry (newDentry_ op') (set_dentry (dentry_ op') op) /\
  forall (h' : Handler W) (w' : W),
    let o' := run h' (PrepareTx op') w' in
    snd (value o') = op' /\
    head (prepare_submissions (trace o')) =
    head (prepare_submissions (trace o)).
Proof.
  cbv zeta. split; [by rewrite PrepareTx_value |].
  intros h' w'.
  rewrite !PrepareTx_value. split; [reflexivity |].
  destruct (decide (srcPartitionId_ op = dstPartitionId_ op)) as [Hp | Hp].
  - rewrite !PrepareTx_same_partition by done. done.
  - rewrite !PrepareTx_cross_partition by done. cbv zeta.
    by repeat destruct (decide _).
Qed.

Lemma land_lor_mask (a m : Z) : Z.land (Z.lor a m) m = m.
Proof.
  apply Z.bits_inj'. intros n Hn.
  rewrite Z.land_spec, Z.lor_spec. by destruct (Z.testbit a n), (Z.testbit m n).
Qed.

Lemma land_lor_keeps (a m : Z) : Z.land (Z.lor a m) a = a.
Proof.
  apply Z.bits_inj'. intros n Hn.
  rewrite Z.land_spec, Z.lor_spec. by destruct (Z.testbit a n), (Z.testbit m n).
Qed.

Lemma land_lor_disjoint (a m c : Z) :
  Z.land m c = 0 -> Z.land (Z.lor a m) c = Z.land a c.
Proof.
  intros Hd. rewrite Z.land_lor_distr_l, Hd. apply Z.lor_0_r.
Qed.

Lemma lor_is_u32 (a b : Z) : is_u32 a -> is_u32 b -> is_u32 (Z.lor a b).
Proof.
  unfold is_u32. intros [Ha Ha'] [Hb Hb'].
  assert (Hnn : 0 <= Z.lor a b) by (apply Z.lor_nonneg; lia).
  split; [done |].
  destruct (Z.eq_dec a 0) as [-> | Hane]; [by rewrite Z.lor_0_l |].
  destruct (Z.eq_dec b 0) as [-> | Hbne]; [by rewrite Z.lor_0_r |].
  assert (Hpos : 0 < Z.lor a b).
  { destruct (Z.eq_dec (Z.lor a b) 0) as [Hz | Hnz]; [| lia].
    apply Z.lor_eq_0_iff in Hz. lia. }
  apply Z.log2_lt_pow2; [done |].
  rewrite Z.log2_lor by lia.
  assert (Z.log2 a < 32) by (apply Z.log2_lt_pow2; lia).
  assert (Z.log2 b < 32) by (apply Z.log2_lt_pow2; lia).
  lia.
Qed.

(** X19.  Staging never clears a flag bit of the source entry: both
    staged entries keep every bit of [srcDentry_]'s flags; the tombstone
    carries all bits of [DELETE_MARK_FLAG] and of
    [TRANSACTION_PREPARE_FLAG], the new entry all bits of
    [TRANSACTION_PREPARE_FLAG]. *)
Theorem staged_flags_contain :
  let op' := snd (value (run h (PrepareTx op) w)) in
  let src := Dentry.flag (srcDentry_ op) in
  let tomb := Dentry.flag (dentry_ op') in
  let new := Dentry.flag (newDentry_ op') in
  Z.land tomb DELETE_MARK_FLAG = DELETE_MARK_FLAG /\
  Z.land tomb TRANSACTION_PREPARE_FLAG = TRANSACTION_PREPARE_FLAG /\
  Z.land new TRANSACTION_PREPARE_FLAG = TRANSACTION_PREPARE_FLAG /\
  Z.land tomb src = src /\
  Z.land new src = src.
Proof.
  cbv zeta. rewrite PrepareTx_value. cbn.
  split_and!.
  - rewrite <- Z.lor_assoc, (Z.lor_comm DELETE_MARK_FLAG), Z.lor_assoc.
    apply land_lor_mask.
  - apply land_lor_mask.
  - apply land_lor_mask.
  - rewrite <- Z.lor_assoc. apply land_lor_keeps.
  - apply land_lor_keeps.
Qed.

(** X20.  When the three flag masks are pairwise disjoint, staging
    preserves the type of the entry and does not mark the new entry as
    deleted: both staged entries have the [TYPE_FILE_FLAG] bits of the
    source, and the new entry has the [DELETE_MARK_FLAG] bits of the
    source. *)
Theorem staged_type_preserved :
  let op' := snd (value (run h (PrepareTx op) w)) in
  let src := Dentry.flag (srcDentry_ op) in
  let tomb := Dentry.flag (dentry_ op') in
  let new := Dentry.flag (newDentry_ op') in
  Z.land TYPE_FILE_FLAG DELETE_MARK_FLAG = 0 ->
  Z.land TYPE_FILE_FLAG TRANSACTION_PREPARE_FLAG = 0 ->
  Z.land DELETE_MARK_FLAG TRANSACTION_PREPARE_FLAG = 0 ->
  Z.land tomb TYPE_FILE_FLAG = Z.land src TYPE_FILE_FLAG /\
  Z.land new TYPE_FILE_FLAG = Z.land src TYPE_FILE_FLAG /\
  Z.land new DELETE_MARK_FLAG = Z.land src DELETE_MARK_FLAG.
Proof.
  cbv zeta. intros Hfd Hfp Hdp. rewrite PrepareTx_value. cbn.
  rewrite Z.land_comm in Hfd, Hfp.
  split_and!.
  - by rewrite !land_lor_disjoint.
  - by rewrite land_lor_disjoint.
  - rewrite land_lor_disjoint; [done |]. by rewrite Z.land_comm.
Qed.

(** X21.  Staged values stay in range: the transaction ids of both
    staged entries are [uint64_t] values whatever the counters were,
    and when the source entry's flags and the two masks are [uint32_t]
    values so are the flags of both staged entries.  The tombstone's id
    is 0 exactly when the source counter is at its largest value. *)
Theorem staged_in_range :
  let op' := snd (value (run h (PrepareTx op) w)) in
  is_u64 (Dentry.txid (dentry_ op')) /\
  is_u64 (Dentry.txid (newDentry_ op')) /\
  (is_u32 (Dentry.flag (srcDentry_ op)) ->
   is_u32 DELETE_MARK_FLAG -> is_u32 TRANSACTION_PREPARE_FLAG ->
     is_u32 (Dentry.flag (dentry_ op')) /\
     is_u32 (Dentry.flag (newDentry_ op'))) /\
  (is_u64 (srcTxId_ op) ->
     (Dentry.txid (dentry_ op') = 0 <-> srcTxId_ op = UINT64_MODULUS - 1)).
Proof.
  cbv zeta. rewrite PrepareTx_value. cbn.
  split_and!; try apply u64_add_is_u64.
  - intros Hs Hd Hp. split; auto using lor_is_u32.
  - unfold is_u64, u64_add, UINT64_MODULUS. intros Hr. split.
    + intros Hz.
      destruct (Z.eq_dec (srcTxId_ op) (2 ^ 64 - 1)) as [| Hne]; [done |].
      rewrite Z.mod_small in Hz by lia. lia.
    + intros ->. reflexivity.
Qed.

(** X22.  The batch [CommitTx] submits after [PrepareTx] speaks of the
    staged entries: each pair in it is the source partition with the
    tombstone's transaction id or, on two partitions, the destination
    partition with the new entry's id.  The tombstone's pair is always
    in the batch; the new entry's pair is in it when the partitions
    differ or the two observed counters are equal. *)
Theorem commit_matches_staged :
  let op' := snd (value (run h (PrepareTx op) w)) in
  let tomb :=
    PartitionTxId.mk (srcPartitionId_ op) (Dentry.txid (dentry_ op')) in
  let new :=
    PartitionTxId.mk (dstPartitionId_ op) (Dentry.txid (newDentry_ op')) in
  forall (h' : Handler W) (w' : W),
  exists batch,
    commit_calls (trace (run h' (CommitTx op') w')) = [batch] /\
    In tomb batch /\
    (forall x, In x batch ->
       x = tomb \/ (srcPartitionId_ op <> dstPartitionId_ op /\ x = new)) /\
    (srcPartitionId_ op <> dstPartitionId_ op \/ srcTxId_ op = dstTxId_ op ->
       In new batch).
Proof.
  cbv zeta. intros h' w'. exists (commit_txIds (staged op)).
  rewrite PrepareTx_value, CommitTx_calls. split; [done |].
  unfold commit_txIds. cbn.
  destruct (decide _) as [Hne | Heq]; cbn.
  - split_and!; [by left | | by right; left].
    intros x [<- | [<- | []]]; [by left | by right].
  - apply dec_stable in Heq. split_and!; [by left | |].
    + intros x [<- | []]. by left.
    + intros [Hne | Htx]; [done |]. left. by rewrite Heq, Htx.
Qed.

(** X23.  [UpdateCache] after [PrepareTx] issues exactly four calls,
    in this order: it evicts ([parentId_], [name_]), caches the staged
    new entry, hands [SetTxId] the source partition with its counter
    plus one, and then hands [SetTxId] the destination partition with
    its counter plus one.  The cached entry is filed under
    ([newParentId_], [newname_]) and points to the source's inode.
    Every pair a [CommitTx] on the same coordinator submits is among
    the pairs handed to [SetTxId], and when [PrepareTx] returned [OK]
    the cached entry is the last entry it submitted. *)
Theorem UpdateCache_publishes :
  let oP := run h (PrepareTx op) w in
  let op' := snd (value oP) in
  forall (h' : Handler W) (w' : W),
    let tr := trace (run h' (UpdateCache op') w') in
    tr =
      [Ev (DentryManager_DeleteCache (parentId_ op) (name_ op)) tt;
       Ev (DentryManager_InsertOrReplaceCache (newDentry_ op')) tt;
       Ev (MetaClient_SetTxId (srcPartitionId_ op)
             (u64_add (srcTxId_ op) 1)) tt;
       Ev (MetaClient_SetTxId (dstPartitionId_ op)
             (u64_add (dstTxId_ op) 1)) tt] /\
    length tr = 4%nat /\
    cache_deletes tr = [(parentId_ op, name_ op)] /\
    cache_inserts tr = [newDentry_ op'] /\
    Dentry.parentinodeid (newDentry_ op') = newParentId_ op /\
    Dentry.name (newDentry_ op') = newname_ op /\
    Dentry.inodeid (newDentry_ op') = Dentry.inodeid (srcDentry_ op) /\
    settxid_calls tr =
      [(srcPartitionId_ op, u64_add (srcTxId_ op) 1);
       (dstPartitionId_ op, u64_add (dstTxId_ op) 1)] /\
    (forall (h'' : Handler W) (w'' : W) batch x,
       commit_calls (trace (run h'' (CommitTx op') w'')) = [batch] ->
       In x batch ->
       In (PartitionTxId.partitionid x, PartitionTxId.txid x)
          (settxid_calls tr)) /\
    (fst (value oP) = CURVEFS_ERROR.OK ->
       exists batch,
         last (prepare_submissions (trace oP)) = Some batch /\
         last batch = Some (newDentry_ op')).
Proof.
  cbv zeta. intros h' w'. rewrite PrepareTx_value.
  split_and!; try (unfold UpdateCache, SetTxId; cbn; done).
  - unfold UpdateCache, SetTxId. cbn.
    repeat (f_equal;
            try match goal with
                | |- ?u = tt => by destruct u
                end).
  - intros h'' w'' batch x. rewrite CommitTx_calls. intros [= <-].
    unfold commit_txIds, UpdateCache, SetTxId. cbn.
    destruct (decide _); cbn; intros Hin;
      repeat (destruct Hin as [<- | Hin]); try done; cbn; auto.
  - destruct (decide (srcPartitionId_ op = dstPartitionId_ op)) as [Hp | Hp].
    + rewrite PrepareTx_same_partition by done. cbn. intros _. by eexists.
    + rewrite PrepareTx_cross_partition by done. cbv zeta.
      destruct (decide _) as [Hok | Hfail]; cbn; [intros _; by eexists |].
      done.
Qed.

(** X24.  The steps keep to their collaborators.  Only [PrepareTx]
    issues prepare submissions and only [CommitTx] calls the cluster
    manager: no other step does either.  And none of [GetTxId],
    [Precheck], [PrepareTx], [CommitTx] and [UnlinkOldInode] evicts or
    inserts a cache entry or calls [SetTxId]. *)
Theorem steps_keep_to_their_collaborators :
  let quiet (tr : list Event) :=
    cache_inserts tr = [] /\ cache_deletes tr = [] /\
    settxid_calls tr = [] in
  let no_tx (tr : list Event) :=
    prepare_submissions tr = [] /\ commit_calls tr = [] in
  (no_tx (trace (run h (GetTxId op) w)) /\
   no_tx (trace (run h (Precheck op) w)) /\
   no_tx (trace (run h (UnlinkOldInode op) w)) /\
   no_tx (trace (run h (UpdateCache op) w))) /\
  commit_calls (trace (run h (PrepareTx op) w)) = [] /\
  prepare_submissions (trace (run h (CommitTx op) w)) = [] /\
  (quiet (trace (run h (GetTxId op) w)) /\
   quiet (trace (run h (Precheck op) w)) /\
   quiet (trace (run h (PrepareTx op) w)) /\
   quiet (trace (run h (CommitTx op) w)) /\
   quiet (trace (run h (UnlinkOldInode op) w))).
Proof.
  cbv zeta.
  assert (HP : forall tr v w',
    run h (PrepareTx op) w = mkOutcome v w' tr ->
    commit_calls tr = [] /\ cache_inserts tr = [] /\
    cache_deletes tr = [] /\ settxid_calls tr = []).
  { intros tr v w'.
    destruct (decide (srcPartitionId_ op = dstPartitionId_ op)) as [Hp | Hp].
    - rewrite PrepareTx_same_partition by done. by intros [= <- <- <-].
    - rewrite PrepareTx_cross_partition by done. cbv zeta.
      destruct (decide _); by intros [= <- <- <-]. }
  destruct (run h (PrepareTx op) w) as [v w' tr] eqn:HrunP.
  destruct (HP tr v w' eq_refl) as (HPc & HPi & HPd & HPs).
  cbn [trace]. clear HP HrunP.
  unfold GetTxId, GetTxId4, Precheck, CheckOverwrite, CommitTx,
    UnlinkOldInode, UpdateCache, SetTxId.
  cbn. repeat (case_decide; cbn); done.
Qed.

(** X25.  How the steps hand data on.  Run [GetTxId], [Precheck],
    [PrepareTx] and [CommitTx] one after the other on the same
    coordinator.  When both id lookups succeed, the first prepare
    submission opens with the dentry the source lookup handed back,
    restamped with the source counter plus one and flagged as a
    prepared tombstone, and the commit batch pairs the partitions the
    id lookups handed back with their counters plus one.  This holds
    whatever [Precheck] and [PrepareTx] returned. *)
Theorem steps_hand_data_on :
  let c1 := MetaClient_GetTxId (fsId_ op) (parentId_ op)
              (srcPartitionId_ op) (srcTxId_ op) in
  let r1 := h _ c1 w in
  let c2 := MetaClient_GetTxId (fsId_ op) (newParentId_ op)
              (dstPartitionId_ op) (dstTxId_ op) in
  let r2 := h _ c2 (snd r1) in
  let o1 := run h (GetTxId op) w in
  let d := DentryManager_GetDentry (parentId_ op) (name_ op)
             (srcDentry_ op) in
  let src := snd (fst (h _ d (world o1))) in
  let o2 := run h (Precheck (snd (value o1))) (world o1) in
  let o3 := run h (PrepareTx (snd (value o2))) (world o2) in
  let o4 := run h (CommitTx (snd (value o3))) (world o3) in
  let p1 := snd (fst (fst r1)) in
  let t1 := snd (fst r1) in
  let p2 := snd (fst (fst r2)) in
  let t2 := snd (fst r2) in
  fst (value o1) = CURVEFS_ERROR.OK ->
  (exists rest,
     head (prepare_submissions (trace o3)) =
     Some (Dentry.mk (Dentry.fsid src) (Dentry.inodeid src)
             (Dentry.parentinodeid src) (Dentry.name src) (u64_add t1 1)
             (Z.lor (Z.lor (Dentry.flag src) DELETE_MARK_FLAG)
                    TRANSACTION_PREPARE_FLAG) :: rest)) /\
  commit_calls (trace o4) =
    [PartitionTxId.mk p1 (u64_add t1 1) ::
     if decide (p1 <> p2) then [PartitionTxId.mk p2 (u64_add t2 1)] else []].
Proof.
  cbv zeta. intros Hok.
  assert (Hrc1 : MetaStatusCodeToCurvefsErrCode (fst (fst (fst (h _
            (MetaClient_GetTxId (fsId_ op) (parentId_ op)
               (srcPartitionId_ op) (srcTxId_ op)) w)))) = CURVEFS_ERROR.OK).
  { revert Hok. unfold GetTxId, GetTxId4. cbn.
    destruct (decide _) as [Hfail | Hok1]; cbn; [done |].
    intros _. by apply dec_stable in Hok1. }
  assert (Hop1 : run h (GetTxId op) w =
    let r1 := h _ (MetaClient_GetTxId (fsId_ op) (parentId_ op)
                     (srcPartitionId_ op) (srcTxId_ op)) w in
    let r2 := h _ (MetaClient_GetTxId (fsId_ op) (newParentId_ op)
                     (dstPartitionId_ op) (dstTxId_ op)) (snd r1) in
    mkOutcome
      (MetaStatusCodeToCurvefsErrCode (fst (fst (fst r2))),
       set_dst (snd (fst (fst r2))) (snd (fst r2))
         (set_src (snd (fst (fst r1))) (snd (fst r1)) op))
      (snd r2)
      [Ev (MetaClient_GetTxId (fsId_ op) (parentId_ op)
             (srcPartitionId_ op) (srcTxId_ op)) (fst r1);
       Ev (MetaClient_GetTxId (fsId_ op) (newParentId_ op)
             (dstPartitionId_ op) (dstTxId_ op)) (fst r2)]).
  { unfold GetTxId, GetTxId4. cbn. rewrite Hrc1.
    destruct (decide _) as [Hno | _]; [done |]. done. }
  rewrite Hop1. cbv zeta. cbn [value world snd fst].
  set (op1 := set_dst _ _ _).
  set (w1 := snd (h _ (MetaClient_GetTxId (fsId_ op) (newParentId_ op) _ _) _)).
  pose proof (Precheck_keeps_ids h w1 op1) as Hfr. cbv zeta in Hfr.
  set (op2 := snd (value (run h (Precheck op1) w1))) in *.
  rewrite CommitTx_calls, PrepareTx_value.
  assert (Hsrc : srcDentry_ op2 =
                 snd (fst (h _ (DentryManager_GetDentry (parentId_ op)
                                  (name_ op) (srcDentry_ op)) w1)))
    by (rewrite Hfr; done).
  assert (Hids : srcPartitionId_ op2 = srcPartitionId_ op1 /\
                 dstPartitionId_ op2 = dstPartitionId_ op1 /\
                 srcTxId_ op2 = srcTxId_ op1 /\
                 dstTxId_ op2 = dstTxId_ op1).
  { rewrite Hfr. done. }
  destruct Hids as (Hsp & Hdp & Hst & Hdt).
  split.
  - destruct (decide (srcPartitionId_ op2 = dstPartitionId_ op2)) as [Hp | Hp].
    + rewrite PrepareTx_same_partition by done. cbn.
      eexists. unfold staged_dentry. cbn. by rewrite Hsrc, Hst.
    + rewrite PrepareTx_cross_partition by done. cbv zeta.
      destruct (decide _); cbn; eexists; unfold staged_dentry; cbn;
        by rewrite Hsrc, Hst.
  - unfold commit_txIds. cbn. rewrite Hsp, Hdp, Hst, Hdt. cbn.
    by destruct (decide _).
Qed.

End Coordinator_more.

(** ** The further statements at work on the samples *)

Lemma sample_storage_wf : MemoryInodeStorage.wf sample_storage.
Proof. apply (wf_Insert fst), wf_empty. Qed.

Lemma sample_storage2_wf : MemoryInodeStorage.wf sample_storage2.
Proof. apply (wf_Insert fst), sample_storage_wf. Qed.

Lemma Insert_stores_witness :
  let s' := snd (MemoryInodeStorage.Insert fst (6, 2) sample_storage) in
  MemoryInodeStorage.GetCopy 6 s' = (MetaStatusCode.OK, Some (6, 2)) /\
  MemoryInodeStorage.Count s' = MemoryInodeStorage.Count sample_storage + 1.
Proof.
  cbv zeta.
  destruct (Insert_stores fst sample_storage (6, 2) sample_storage_wf)
    as (Hcopy & _ & Hcount & _).
  - vm_compute. reflexivity.
  - split; [exact Hcopy |]. apply Hcount. vm_compute. reflexivity.
Defined.

Lemma Update_through_pointer_witness :
  let s' := snd (MemoryInodeStorage.Update fst (5, 7) sample_storage) in
  MemoryInodeStorage.objects s' !! 1%positive = Some (5, 7) /\
  MemoryInodeStorage.GetCopy 5 s' = (MetaStatusCode.OK, Some (5, 7)).
Proof.
  cbv zeta.
  destruct (Update_through_pointer fst sample_storage (5, 7) 1%positive)
    as (_ & _ & Hobj & Hcopy & _).
  - vm_compute. reflexivity.
  - split; assumption.
Defined.

Lemma Update_frame_witness :
  MemoryInodeStorage.GetCopy 6
    (snd (MemoryInodeStorage.Update fst (5, 9) sample_storage2)) =
  MemoryInodeStorage.GetCopy 6 sample_storage2.
Proof.
  apply (Update_frame fst sample_storage2 (5, 9) 6 sample_storage2_wf).
  cbn. discriminate.
Defined.

Lemma Delete_outcome_witness :
  let s' := snd (MemoryInodeStorage.Delete 5 sample_storage2) in
  MemoryInodeStorage.Count s' = MemoryInodeStorage.Count sample_storage2 - 1 /\
  snd (MemoryInodeStorage.Delete 9 sample_storage2) = sample_storage2.
Proof.
  cbv zeta.
  pose proof (Delete_outcome sample_storage2 5) as H5.
  pose proof (Delete_outcome sample_storage2 9) as H9.
  cbv zeta in H5, H9.
  destruct H5 as (_ & _ & _ & Hpresent & _).
  destruct H9 as (_ & _ & _ & _ & Hsame).
  split.
  - destruct Hpresent as (_ & Hcount & _).
    + eexists. vm_compute. reflexivity.
    + apply Hcount. vm_compute. reflexivity.
  - apply Hsame. vm_compute. reflexivity.
Defined.

Lemma Insert_Delete_round_trip_witness :
  MemoryInodeStorage.inodeMap_
    (snd (MemoryInodeStorage.Delete 6
            (snd (MemoryInodeStorage.Insert fst (6, 1) sample_storage)))) =
  MemoryInodeStorage.inodeMap_ sample_storage.
Proof.
  apply (Insert_Delete_round_trip fst sample_storage (6, 1)).
  vm_compute. reflexivity.
Defined.

Lemma GetCopy_agrees_with_Get_witness :
  exists inode : Z * Z,
    MemoryInodeStorage.objects sample_storage2 !! 2%positive = Some inode /\
    MemoryInodeStorage.GetCopy 6 sample_storage2 =
      (MetaStatusCode.OK, Some inode).
Proof.
  apply (GetCopy_agrees_with_Get sample_storage2 6 2%positive
           sample_storage2_wf).
  vm_compute. reflexivity.
Defined.

Lemma GetInodeIdList_appends_witness :
  exists ids,
    MemoryInodeStorage.GetInodeIdList fst [0] sample_storage2 = [0] ++ ids /\
    length ids = 2%nat /\
    Z.of_nat (length ids) = MemoryInodeStorage.Count sample_storage2.
Proof.
  destruct (GetInodeIdList_appends fst sample_storage2 [0] sample_storage2_wf)
    as (ids & Happ & Hlen & Hcount & _).
  exists ids. split; [exact Happ |]. split.
  - rewrite Hlen. vm_compute. reflexivity.
  - apply Hcount. vm_compute. reflexivity.
Defined.

Lemma Count_bounds_witness :
  MemoryInodeStorage.Count sample_storage2 = 2 /\
  MemoryInodeStorage.Count (snd (MemoryInodeStorage.Delete 5 sample_storage2))
    <= MemoryInodeStorage.Count sample_storage2.
Proof.
  pose proof (Count_bounds fst sample_storage2 (5, 1) 5 []) as Hw.
  cbv zeta in Hw.
  destruct Hw as (_ & _ & Heq & _ & Hdel & _).
  split.
  - rewrite Heq; vm_compute; reflexivity.
  - apply Hdel. vm_compute. reflexivity.
Defined.

Lemma GetTxId_assigns_witness :
  let op' :=
    snd (value (run (scripted sample_script)
                  (GetTxId (E:=sample_externals) sample_unresolved) 0%nat)) in
  dstPartitionId_ op' = 0 /\ dstTxId_ op' = 0.
Proof.
  cbv zeta.
  pose proof (GetTxId_assigns (E:=sample_externals) (scripted sample_script)
                0%nat sample_unresolved) as Hw.
  cbv zeta in Hw. destruct Hw as (_ & _ & Hfail & _).
  destruct Hfail as [Hp Ht]; [cbn; discriminate |].
  rewrite Hp, Ht. split; reflexivity.
Defined.

Lemma Precheck_destination_absent_witness :
  let o :=
    run (scripted sample_script)
      (Precheck (E:=sample_externals) sample_resolved_new) 2%nat in
  fst (value o) = CURVEFS_ERROR.OK /\
  trace (run (scripted sample_script)
           (UnlinkOldInode (snd (value o))) 4%nat) = [].
Proof.
  cbv zeta.
  pose proof (Precheck_destination_absent (E:=sample_externals)
                (scripted sample_script) 2%nat sample_resolved_new) as Hw.
  cbv zeta in Hw.
  destruct (Hw eq_refl eq_refl) as (Hrc & _ & _ & _ & Hunlink).
  split; [exact Hrc |]. apply Hunlink. reflexivity.
Defined.

Lemma Precheck_lookup_error_witness :
  fst (value (run (scripted sample_script)
                (Precheck (E:=sample_externals)
                   (RenameOperator_new 1 10 "nope" 20 "bar")) 0%nat))
    = CURVEFS_ERROR.NOTEXIST /\
  fst (value (run (scripted_lookup_status 20 CURVEFS_ERROR.INTERNAL
                     sample_script)
                (Precheck (E:=sample_externals) sample_resolved_bar) 2%nat))
    = CURVEFS_ERROR.INTERNAL.
Proof.
  pose proof (Precheck_lookup_error (E:=sample_externals)
                (scripted sample_script) 0%nat
                (RenameOperator_new 1 10 "nope" 20 "bar")) as [Hsrc _].
  pose proof (Precheck_lookup_error (E:=sample_externals)
                (scripted_lookup_status 20 CURVEFS_ERROR.INTERNAL
                   sample_script) 2%nat sample_resolved_bar) as [_ Hdst].
  cbv zeta in Hsrc, Hdst.
  destruct Hsrc as (Hrc1 & _); [cbn; discriminate |].
  destruct Hdst as (Hrc2 & _);
    [reflexivity | cbn; discriminate | cbn; discriminate |].
  rewrite Hrc1, Hrc2. split; reflexivity.
Defined.

Lemma UnlinkOldInode_after_Precheck_witness :
  let op' :=
    snd (value (run (scripted sample_script)
                  (Precheck (E:=sample_externals) sample_resolved_bar)
                  2%nat)) in
  inode_lookups
    (trace (run (scripted sample_script) (UnlinkOldInode op') 5%nat)) = [200].
Proof.
  cbv zeta.
  rewrite (UnlinkOldInode_after_Precheck (E:=sample_externals)
             (scripted sample_script) 2%nat sample_resolved_bar
             eq_refl eq_refl (scripted sample_script) 5%nat).
  reflexivity.
Defined.

Lemma PrepareTx_result_witness :
  length
    (prepare_statuses
       (trace (run (scripted sample_script)
                 (PrepareTx (E:=sample_externals) sample_same_partition)
                 0%nat))) = 1%nat.
Proof.
  pose proof (PrepareTx_result (E:=sample_externals) (scripted sample_script)
                0%nat sample_same_partition) as Hw.
  cbv zeta in Hw. destruct Hw as (_ & _ & Hone & _).
  apply Hone. reflexivity.
Defined.

Lemma staged_type_preserved_witness :
  let op' :=
    snd (value (run (scripted sample_script)
                  (PrepareTx (E:=sample_externals) sample_cross_partition)
                  0%nat)) in
  Z.land (Dentry.flag (newDentry_ op')) 1 = 1 /\
  Z.land (Dentry.flag (newDentry_ op')) 2 = 0.
Proof.
  cbv zeta.
  pose proof (staged_type_preserved (E:=sample_externals)
                (scripted sample_script) 0%nat sample_cross_partition) as Hw.
  cbv zeta in Hw.
  destruct (Hw eq_refl eq_refl eq_refl) as (_ & Hfile & Hdel).
  split; [exact Hfile | exact Hdel].
Defined.

Lemma staged_in_range_witness :
  let op' :=
    snd (value (run (scripted sample_script)
                  (PrepareTx (E:=sample_externals) sample_cross_partition)
                  0%nat)) in
  is_u32 (Dentry.flag (dentry_ op')) /\
  is_u32 (Dentry.flag (newDentry_ op')).
Proof.
  cbv zeta.
  pose proof (staged_in_range (E:=sample_externals)
                (scripted sample_script) 0%nat sample_cross_partition) as Hw.
  cbv zeta in Hw. destruct Hw as (_ & _ & Hflags & _).
  apply Hflags; unfold is_u32; cbn; lia.
Defined.

Lemma commit_matches_staged_witness :
  exists batch,
    commit_calls
      (trace (run (scripted sample_script)
                (CommitTx
                   (snd (value (run (scripted sample_script)
                                  (PrepareTx (E:=sample_externals)
                                     sample_cross_partition) 0%nat))))
                2%nat)) = [batch] /\
    In (PartitionTxId.mk 2 9) batch.
Proof.
  pose proof (commit_matches_staged (E:=sample_externals)
                (scripted sample_script) 0%nat sample_cross_partition) as Hw.
  cbv zeta in Hw.
  destruct (Hw (scripted sample_script) 2%nat)
    as (batch & Hcalls & _ & _ & Hnew).
  exists batch. split; [exact Hcalls |].
  apply Hnew. left. cbn. discriminate.
Defined.

Lemma UpdateCache_publishes_witness :
  let oP :=
    run (scripted sample_script)
      (PrepareTx (E:=sample_externals) sample_cross_partition) 0%nat in
  exists batch,
    last (prepare_submissions (trace oP)) = Some batch /\
    last batch = Some (newDentry_ (snd (value oP))).
Proof.
  cbv zeta.
  pose proof (UpdateCache_publishes (E:=sample_externals)
                (scripted sample_script) 0%nat sample_cross_partition) as Hw.
  cbv zeta in Hw.
  destruct (Hw (scripted sample_script) 2%nat)
    as (_ & _ & _ & _ & _ & _ & _ & _ & _ & Hlast).
  apply Hlast. reflexivity.
Defined.

Lemma steps_hand_data_on_witness :
  let h := scripted sample_script in
  let o1 :=
    run h (GetTxId (E:=sample_externals)
             (RenameOperator_new 1 10 "foo" 20 "bar")) 0%nat in
  let o2 := run h (Precheck (E:=sample_externals) (snd (value o1)))
              (world o1) in
  let o3 := run h (PrepareTx (E:=sample_externals) (snd (value o2)))
              (world o2) in
  let o4 := run h (CommitTx (snd (value o3))) (world o3) in
  commit_calls (trace o4) =
    [[PartitionTxId.mk 1 6; PartitionTxId.mk 2 9]].
Proof.
  cbv zeta.
  pose proof (steps_hand_data_on (E:=sample_externals)
                (scripted sample_script) 0%nat
                (RenameOperator_new 1 10 "foo" 20 "bar")) as Hw.
  cbv zeta in Hw.
  destruct (Hw eq_refl) as [_ Hcommit].
  rewrite Hcommit. reflexivity.
Defined.
